(** * pydocusign: the DocuSign client ([pydocusign/client.py])

    A shallow embedding of [DocuSignClient] and the properties of its
    request/response marshalling layer: header construction, multipart
    framing, status-code checks, lazy login and the timeout property.

    Conventions of the embedding.
    - Python (2) strings are [string], byte strings and unicode strings
      alike; integers are [Z]; floats are the kernel's binary64 [float],
      which is the format of a Python float.
    - Dictionaries with string keys are [gmap string _].
    - [pydocusign.models] and [pydocusign.exceptions] are not among the
      sources: an envelope and a document are records of the attributes
      that [client.py] reads and writes.
    - A method of the client is a function of the client record and of the
      history of external calls; it yields an outcome (a value or a raised
      exception), the client as the call leaves it, and the events it
      added. A raised exception keeps the mutations done before it. *)

From Stdlib Require Import ZArith String Ascii.
From Stdlib Require Import Floats.PrimFloat Floats.SpecFloat Floats.FloatOps.
From stdpp Require Import base option list gmap strings pretty.

Set Warnings "-register-all,-inexact-float".

Open Scope string_scope.
Open Scope list_scope.

(** ** Python values *)

(** The values that travel through the client: what [json.loads] yields and
    what [json.dumps] and [str.format] accept. JSON numbers with a
    fractional part do not occur in the code paths modelled here. *)
Inductive value :=
  | PNone
  | PBool (b : bool)
  | PInt (z : Z)
  | PStr (s : string)
  | PList (l : list value)
  | PDict (m : gmap string value).

(** [bool(s)] for a string. *)
Definition str_truthy (s : string) : bool :=
  match s with
  | EmptyString => false
  | String _ _ => true
  end.

(** [bool(x)] for an argument that is [None] or a string. *)
Definition opt_truthy (o : option string) : bool :=
  match o with
  | None => false
  | Some s => str_truthy s
  end.

(** [bool(v)]. *)
Definition truthy (v : value) : bool :=
  match v with
  | PNone => false
  | PBool b => b
  | PInt z => negb (z =? 0)%Z
  | PStr s => str_truthy s
  | PList l => match l with [] => false | _ :: _ => true end
  | PDict m => negb (bool_decide (m = ∅))
  end.

(** The double quote, [chr(34)]. *)
Definition dquote : string := String "034"%char EmptyString.

(** Carriage return and line feed. *)
Definition CRLF : string := String "013"%char (String "010"%char EmptyString).

(** ** Exceptions and outcomes *)

(** The [Response] named tuple of [client.py]. *)
Record Response := mkResponse {
  status_code : Z;
  text : string;
}.

(** What a [DocuSignException] is built from: a formatted message in
    [_request], the [Response] tuple in [_create_envelope]. *)
Inductive exn_arg :=
  | ArgMsg (msg : string)
  | ArgResponse (r : Response).

(** Modelled from the spec: the two exception classes of
    [pydocusign.exceptions], a module that is not among the sources. The
    spec calls them a generic client exception, which carries what it is
    built from, and a separate exception type for OAuth2 failures. The
    other constructors are the built-in exceptions and the errors of
    [requests] and [pycurl] that the code paths of [client.py] can meet. *)
Inductive exn :=
  | DocuSignException (a : exn_arg)
  | DocuSignOAuth2Exception (body : value)
  | RequestException (e : string)
  | PycurlError (e : string)
  | ValueError (msg : string)
  | OverflowError (msg : string)
  | KeyError (k : value)
  | IndexError
  | TypeError
  | AttributeError.

Inductive outcome (A : Type) :=
  | Ok (a : A)
  | Raise (e : exn).
Arguments Ok {A} a.
Arguments Raise {A} e.

(** ** Numbers and the timeout arithmetic *)

(** A Python number as [set_timeout] receives it. *)
Inductive number :=
  | NInt (z : Z)
  | NFloat (f : float).

(** [int(f)] for a float: truncation toward zero; [ValueError] on NaN and
    [OverflowError] on an infinity. *)
Definition int_of_float (f : float) : outcome Z :=
  match Prim2SF f with
  | S754_zero _ => Ok 0%Z
  | S754_finite s m e =>
      let a := match e with
               | Z0 => Zpos m
               | Zpos _ => Z.shiftl (Zpos m) e
               | Zneg p => Z.shiftr (Zpos m) (Zpos p)
               end in
      Ok (if s then Z.opp a else a)
  | S754_nan => Raise (ValueError "cannot convert float NaN to integer")
  | S754_infinity _ =>
      Raise (OverflowError "cannot convert float infinity to integer")
  end.

(** [float(z)] for an integer: rounding to nearest even; [OverflowError]
    when the integer is beyond the largest finite float. *)
Definition float_of_int (z : Z) : outcome float :=
  let f := SF2Prim (binary_normalize prec emax z 0 false) in
  if is_infinity f
  then Raise (OverflowError "long int too large to convert to float")
  else Ok f.

(** [value < 0.001]. Python compares an integer with a float exactly, and
    [0 < 0.001 < 1]. *)
Definition lower_than_ms (value : number) : bool :=
  match value with
  | NInt z => (z <=? 0)%Z
  | NFloat f => (f <? 0.001)%float
  end.

(** [int(value * 1000)]. *)
Definition int_of_ms (value : number) : outcome Z :=
  match value with
  | NInt z => Ok (z * 1000)%Z
  | NFloat f => int_of_float (f * 1000)%float
  end.

(** [int(value * 1000) / 1000.]. *)
Definition truncate_ms (value : number) : outcome float :=
  match int_of_ms value with
  | Raise e => Raise e
  | Ok n =>
      match float_of_int n with
      | Raise e => Raise e
      | Ok f => Ok (f / 1000)%float
      end
  end.

(** [c.setopt(option, n)] for an option of [pycurl] that takes a C long,
    such as [CONNECTTIMEOUT_MS]: the integer is converted first, and
    [OverflowError] comes out when it does not fit. A C long has 64 bits on
    the platforms the client runs on. *)
Definition setopt_long (n : Z) : outcome Z :=
  if ((- 2 ^ 63 <=? n) && (n <? 2 ^ 63))%Z then Ok n
  else Raise (OverflowError "long too big to convert").

(** ** Strings and formatting *)

(** [s[i]] for a string, with Python's negative indices. *)
Definition str_index (s : string) (i : Z) : option string :=
  let n := Z.of_nat (String.length s) in
  let j := if (i <? 0)%Z then (i + n)%Z else i in
  if (j <? 0)%Z then None
  else match String.get (Z.to_nat j) s with
       | Some c => Some (String c EmptyString)
       | None => None
       end.

(** [l[i]] for a list, with Python's negative indices. *)
Definition list_index (l : list value) (i : Z) : option value :=
  let n := Z.of_nat (length l) in
  let j := if (i <? 0)%Z then (i + n)%Z else i in
  if (j <? 0)%Z then None else l !! Z.to_nat j.

(** [v[k]] for a string key [k]. *)
Definition getitem_str (v : value) (k : string) : outcome value :=
  match v with
  | PDict m =>
      match m !! k with
      | Some x => Ok x
      | None => Raise (KeyError (PStr k))
      end
  | _ => Raise TypeError
  end.

(** [v[i]] for an integer index [i]. The dictionaries of the model have
    string keys only, so an integer key is never found. *)
Definition getitem_int (v : value) (i : Z) : outcome value :=
  match v with
  | PList l =>
      match list_index l i with
      | Some x => Ok x
      | None => Raise IndexError
      end
  | PStr s =>
      match str_index s i with
      | Some c => Ok (PStr c)
      | None => Raise IndexError
      end
  | PDict _ => Raise (KeyError (PInt i))
  | _ => Raise TypeError
  end.

(** [v.get(k)]: [None] for a missing key, [AttributeError] when [v] is not
    a dictionary. *)
Definition dict_get (v : value) (k : string) : outcome value :=
  match v with
  | PDict m => Ok (default PNone (m !! k))
  | _ => Raise AttributeError
  end.

(** The one-character strings of [s], as iterating over it yields them. *)
Fixpoint chars (s : string) : list value :=
  match s with
  | EmptyString => []
  | String c r => PStr (String c EmptyString) :: chars r
  end.

(** [iter(v)]: the items a [for] loop visits; [TypeError] when [v] is not
    iterable. A dictionary yields its keys. *)
Definition py_iter (v : value) : outcome (list value) :=
  match v with
  | PList l => Ok l
  | PStr s => Ok (chars s)
  | PDict m => Ok (PStr <$> (map_to_list m).*1)
  | _ => Raise TypeError
  end.

(** [isinstance(v, collections.Iterable)]. *)
Definition is_iterable (v : value) : bool :=
  match v with
  | PList _ | PStr _ | PDict _ => true
  | _ => false
  end.

(** Whether [v] can be a dictionary key. *)
Definition hashable (v : value) : bool :=
  match v with
  | PList _ | PDict _ => false
  | _ => true
  end.

(** ** The HTTP collaborators *)

(** The functions of the [requests] module that [getattr(requests,
    method.lower())] can name as HTTP verbs. *)
Inductive verb := GET | OPTIONS | HEAD | POST | PUT | PATCH | DELETE.

Definition verb_name (m : verb) : string :=
  match m with
  | GET => "GET" | OPTIONS => "OPTIONS" | HEAD => "HEAD" | POST => "POST"
  | PUT => "PUT" | PATCH => "PATCH" | DELETE => "DELETE"
  end.

(** The [data=] argument of a [requests] call. *)
Inductive payload :=
  | DataNone
  | DataRaw (s : string)
  | DataForm (m : gmap string value).

(** One call [requests.<verb>(url, headers=, data=, timeout=, stream=)]. *)
Record http_request := mkRequest {
  rq_method : verb;
  rq_url : string;
  rq_headers : gmap string value;
  rq_data : payload;
  rq_timeout : option float;
  rq_stream : bool;
}.

(** What the client reads of a [requests] response. Header names are the
    canonical ones (the lookup of [requests] ignores case). *)
Record http_response := mkHttpResponse {
  resp_status_code : Z;
  resp_headers : gmap string string;
  resp_text : string;
}.

(** A [requests] call answers or raises a [RequestException], whose
    [str()] is kept. *)
Inductive http_result :=
  | Responded (r : http_response)
  | Failed (e : string).

(** One [pycurl] transfer as [_create_envelope] sets it up. *)
Record curl_request := mkCurl {
  curl_url : string;
  curl_httpheader : list string;
  curl_postfields : string;
  curl_connecttimeout_ms : Z;
}.

(** [c.perform()] fills the [Response] tuple or raises [pycurl.error]. *)
Inductive curl_result :=
  | Performed (r : Response)
  | CurlFailed (e : string).

(** External effects, in the order the client causes them. [EvLogin] marks
    the entry into [login_information]. *)
Inductive event :=
  | EvLogin
  | EvHttp (rq : http_request)
  | EvCurl (rq : curl_request)
  | EvLogError (msg : string).

(** The library functions and the remote server, which [client.py] uses but
    does not define. The server sees the history of earlier events, so it
    may answer the same request differently over time. *)
Class Externals := {
  json_dumps : value → string;
  json_loads : string → option value;
  py_repr : value → string;
  urlencode : gmap string value → string;
  float_of_str : string → option float;
  requests_send : list event → http_request → http_result;
  curl_perform : list event → curl_request → curl_result;
}.

(** ** The client object *)

Record Client := mkClient {
  root_url : string;
  username : string;
  password : string;
  integrator_key : string;
  account_id : value;
  app_token : string;
  oauth2_token : string;
  account_url : string;
  _timeout : option float;
}.

Definition set_account_id (v : value) (c : Client) : Client :=
  mkClient (root_url c) (username c) (password c) (integrator_key c) v
    (app_token c) (oauth2_token c) (account_url c) (_timeout c).

Definition set_account_url (u : string) (c : Client) : Client :=
  mkClient (root_url c) (username c) (password c) (integrator_key c)
    (account_id c) (app_token c) (oauth2_token c) u (_timeout c).

Definition set__timeout (t : option float) (c : Client) : Client :=
  mkClient (root_url c) (username c) (password c) (integrator_key c)
    (account_id c) (app_token c) (oauth2_token c) (account_url c) t.

(** A file-like object: its bytes and the read position. *)
Record PyFile := mkFile {
  file_content : string;
  file_pos : nat;
}.

Definition file_seek (n : nat) (f : PyFile) : PyFile :=
  mkFile (file_content f) n.

(** [f.read()]: the bytes from the position to the end. *)
Definition file_read (f : PyFile) : string * PyFile :=
  (String.substring (file_pos f) (String.length (file_content f) - file_pos f)
     (file_content f),
   mkFile (file_content f) (Nat.max (file_pos f) (String.length (file_content f)))).

(** The attributes of a document and of an envelope that the client
    touches. [env_to_dict] is what [envelope.to_dict()] returns. *)
Record Document := mkDocument {
  doc_name : value;
  doc_documentId : value;
  doc_data : PyFile;
}.

Record Envelope := mkEnvelope {
  env_to_dict : value;
  env_documents : list Document;
  env_sobo_email : option string;
  env_client : option Client;
  env_envelopeId : value;
}.

Definition set_env_client (c : Client) (e : Envelope) : Envelope :=
  mkEnvelope (env_to_dict e) (env_documents e) (env_sobo_email e) (Some c)
    (env_envelopeId e).

Definition set_env_envelopeId (v : value) (e : Envelope) : Envelope :=
  mkEnvelope (env_to_dict e) (env_documents e) (env_sobo_email e)
    (env_client e) v.

(** ** The monad of client methods *)

Definition M (A : Type) : Type :=
  Client → list event → outcome A * Client * list event.

Definition ret {A} (a : A) : M A := λ self _, (Ok a, self, []).

Definition raise {A} (e : exn) : M A := λ self _, (Raise e, self, []).

Definition lift {A} (o : outcome A) : M A := λ self _, (o, self, []).

Definition bind {A B} (m : M A) (k : A → M B) : M B :=
  λ self h,
    match m self h with
    | (Ok a, self1, e1) =>
        match k a self1 (h ++ e1) with
        | (r, self2, e2) => (r, self2, e1 ++ e2)
        end
    | (Raise e, self1, e1) => (Raise e, self1, e1)
    end.

Definition this : M Client := λ self _, (Ok self, self, []).

Definition assign (f : Client → Client) : M unit :=
  λ self _, (Ok tt, f self, []).

Definition emit (ev : event) : M unit := λ self _, (Ok tt, self, [ev]).

Notation "x <~ m ;; k" := (bind m (λ x, k))
  (at level 20, m at level 99, k at level 200, only parsing).

(** The components of a run. *)
Definition result_of {A} (r : outcome A * Client * list event) : outcome A :=
  r.1.1.
Definition client_of {A} (r : outcome A * Client * list event) : Client :=
  r.1.2.
Definition events_of {A} (r : outcome A * Client * list event) : list event :=
  r.2.

(** ** [DocuSignClient] *)

Section client.
Context {ext : Externals}.

(** [str(v)], which [str.format] applies to its arguments. The text of a
    container is left to [py_repr]. *)
Definition py_str (v : value) : string :=
  match v with
  | PNone => "None"
  | PBool true => "True"
  | PBool false => "False"
  | PInt z => pretty z
  | PStr s => s
  | PList _ | PDict _ => py_repr v
  end.

(** [given], or the environment variable [key] when [given] is empty: the
    pattern [__init__] repeats for each credential. *)
Definition or_environ (environ : gmap string string) (given : string)
    (key : string) : string :=
  if str_truthy given then given else default "" (environ !! key).

Definition get_timeout (self : Client) : outcome float :=
  match _timeout self with
  | Some t => Ok t
  | None => Raise AttributeError
  end.

Definition set_timeout (value : number) (self : Client) : outcome Client :=
  if lower_than_ms value
  then Raise (ValueError "Cannot set timeout lower than 0.001")
  else match truncate_ms value with
       | Raise e => Raise e
       | Ok t => Ok (set__timeout (Some t) self)
       end.

Definition del_timeout (self : Client) : outcome Client :=
  match _timeout self with
  | Some _ => Ok (set__timeout None self)
  | None => Raise AttributeError
  end.

(** [float(os.environ.get('DOCUSIGN_TIMEOUT', 30))]. *)
Definition environ_timeout (environ : gmap string string) : outcome number :=
  match environ !! "DOCUSIGN_TIMEOUT" with
  | None =>
      match float_of_int 30 with
      | Ok f => Ok (NFloat f)
      | Raise e => Raise e
      end
  | Some s =>
      match float_of_str s with
      | Some f => Ok (NFloat f)
      | None => Raise (ValueError "could not convert string to float")
      end
  end.

(** The attributes [__init__] sets before it comes to the timeout. *)
Definition init_attributes (environ : gmap string string)
    (root_url username password integrator_key : string) (account_id : value)
    (account_url : string) (app_token oauth2_token : option string) : Client :=
  let root_url := or_environ environ root_url "DOCUSIGN_ROOT_URL" in
  let username := or_environ environ username "DOCUSIGN_USERNAME" in
  let password := or_environ environ password "DOCUSIGN_PASSWORD" in
  let integrator_key :=
    or_environ environ integrator_key "DOCUSIGN_INTEGRATOR_KEY" in
  let account_id :=
    if truthy account_id then account_id
    else PStr (default "" (environ !! "DOCUSIGN_ACCOUNT_ID")) in
  let app_token :=
    or_environ environ (default "" app_token) "DOCUSIGN_APP_TOKEN" in
  let oauth2_token :=
    or_environ environ (default "" oauth2_token) "DOCUSIGN_OAUTH2_TOKEN" in
  let account_url :=
    if str_truthy root_url && truthy account_id && negb (str_truthy account_url)
    then root_url +:+ "/accounts/" +:+ py_str account_id
    else account_url in
  mkClient root_url username password integrator_key account_id
    app_token oauth2_token account_url None.

Definition __init__ (environ : gmap string string)
    (root_url username password integrator_key : string) (account_id : value)
    (account_url : string) (app_token oauth2_token : option string)
    (timeout : option number) : outcome Client :=
  let self := init_attributes environ root_url username password
                integrator_key account_id account_url app_token oauth2_token in
  match timeout with
  | Some t => set_timeout t self
  | None =>
      match environ_timeout environ with
      | Raise e => Raise e
      | Ok t => set_timeout t self
      end
  end.

Definition base_headers (self : Client) (sobo_email : option string)
    : gmap string value :=
  let headers : gmap string value :=
    {[ "Accept" := PStr "application/json";
       "Content-Type" := PStr "application/json" ]} in
  if str_truthy (oauth2_token self) then
    let headers :=
      <["Authorization" := PStr ("Bearer " +:+ oauth2_token self)]> headers in
    match sobo_email with
    | Some email =>
        if str_truthy email
        then <["X-DocuSign-Act-As-User" := PStr email]> headers
        else headers
    | None => headers
    end
  else
    let auth : gmap string value :=
      {[ "Username" := PStr (username self);
         "Password" := PStr (password self);
         "IntegratorKey" := PStr (integrator_key self) ]} in
    let auth :=
      match sobo_email with
      | Some email =>
          if str_truthy email
          then <["SendOnBehalfOf" := PStr email]> auth
          else auth
      | None => auth
      end in
    <["X-DocuSign-Authentication" := PStr (json_dumps (PDict auth))]> headers.

(** One call into [requests]: the server answers from the history, and the
    request is recorded. *)
Definition requests_call (rq : http_request) : M http_result :=
  λ self h, (Ok (requests_send h rq), self, [EvHttp rq]).

(** [response.json()]. *)
Definition response_json (response : http_response) : outcome value :=
  match json_loads (resp_text response) with
  | Some v => Ok v
  | None => Raise (ValueError "No JSON object could be decoded")
  end.

(** The message of the exception for a request that got no response. *)
Definition request_error_msg (method : verb) (do_url exception : string)
    : string :=
  "DocuSign request error: " +:+ verb_name method +:+ " " +:+ do_url
  +:+ " failed ; Error: " +:+ exception.

(** The message of the exception for an unexpected status code. *)
Definition request_failed_msg (method : verb) (do_url : string)
    (expected_status_code : Z) (response : http_response) : string :=
  "DocuSign request failed: " +:+ verb_name method +:+ " " +:+ do_url
  +:+ " returned code " +:+ pretty (resp_status_code response)
  +:+ " while expecting code " +:+ pretty expected_status_code
  +:+ "; Message: " +:+ resp_text response +:+ " ; ".

(** The request [_request] sends. *)
Definition request_of (self : Client) (url : string) (method : verb)
    (headers : option (gmap string value)) (data : option value)
    (file_data : option string) (sobo_email : option string)
    (timeout : float) : http_request :=
  let do_url := root_url self +:+ url in
  let headers := default ∅ headers in
  (* do_headers.update(headers): the caller's headers win *)
  let do_headers := headers ∪ base_headers self sobo_email in
  let do_data :=
    match data with
    | Some d => DataRaw (json_dumps d)
    | None => DataNone
    end in
  let do_data :=
    match file_data with
    | Some f => if str_truthy f then DataRaw f else do_data
    | None => do_data
    end in
  mkRequest method do_url do_headers do_data (Some timeout) false.

Definition _request (url : string) (method : verb)
    (headers : option (gmap string value)) (data : option value)
    (file_data : option string) (expected_status_code : Z)
    (sobo_email : option string) : M value :=
  self <~ this ;;
  let do_url := root_url self +:+ url in
  timeout <~ lift (get_timeout self) ;;
  answer <~ requests_call
    (request_of self url method headers data file_data sobo_email timeout) ;;
  match answer with
  | Failed exception =>
      let msg := request_error_msg method do_url exception in
      _ <~ emit (EvLogError msg) ;;
      raise (DocuSignException (ArgMsg msg))
  | Responded response =>
      if negb (resp_status_code response =? expected_status_code)%Z then
        let msg :=
          request_failed_msg method do_url expected_status_code response in
        _ <~ emit (EvLogError msg) ;;
        raise (DocuSignException (ArgMsg msg))
      else if String.prefix "application/json"
                (default "" (resp_headers response !! "Content-Type"))
      then lift (response_json response)
      else ret (PStr (resp_text response))
  end.

Definition get (url : string) (headers : option (gmap string value))
    (data : option value) (file_data : option string)
    (expected_status_code : Z) (sobo_email : option string) : M value :=
  _request url GET headers data file_data expected_status_code sobo_email.

Definition post (url : string) (headers : option (gmap string value))
    (data : option value) (file_data : option string)
    (expected_status_code : Z) (sobo_email : option string) : M value :=
  _request url POST headers data file_data expected_status_code sobo_email.

Definition put (url : string) (headers : option (gmap string value))
    (data : option value) (file_data : option string)
    (expected_status_code : Z) (sobo_email : option string) : M value :=
  _request url PUT headers data file_data expected_status_code sobo_email.

Definition delete (url : string) (headers : option (gmap string value))
    (data : option value) (file_data : option string)
    (expected_status_code : Z) (sobo_email : option string) : M value :=
  _request url DELETE headers data file_data expected_status_code sobo_email.

Definition login_information : M value :=
  _ <~ emit EvLogin ;;
  let url := "/login_information" in
  let headers : gmap string value := ∅ in
  data <~ get url (Some headers) None None 200 None ;;
  accounts <~ lift (getitem_str data "loginAccounts") ;;
  first <~ lift (getitem_int accounts 0) ;;
  account <~ lift (getitem_str first "accountId") ;;
  _ <~ assign (set_account_id account) ;;
  self <~ this ;;
  _ <~ assign (set_account_url
                 (root_url self +:+ "/accounts/" +:+ py_str (account_id self))) ;;
  ret data.

(** The class methods take no client: they map a history to an outcome and
    the events added. *)
Definition oauth2_token_request (root_url username password
    integrator_key : string) (h : list event) : outcome value * list event :=
  let url := root_url +:+ "/oauth2/token" in
  let data : gmap string value :=
    {[ "grant_type" := PStr "password";
       "client_id" := PStr integrator_key;
       "username" := PStr username;
       "password" := PStr password;
       "scope" := PStr "api" ]} in
  let headers : gmap string value :=
    {[ "Accept" := PStr "application/json";
       "Content-Type" := PStr "application/x-www-form-urlencoded" ]} in
  let rq := mkRequest POST url headers (DataForm data) None false in
  (match requests_send h rq with
   | Failed e => Raise (RequestException e)
   | Responded response =>
       if negb (resp_status_code response =? 200)%Z then
         match response_json response with
         | Ok body => Raise (DocuSignOAuth2Exception body)
         | Raise e => Raise e
         end
       else
         match response_json response with
         | Ok body => getitem_str body "access_token"
         | Raise e => Raise e
         end
   end, [EvHttp rq]).

Definition oauth2_token_revoke (root_url token : string) (h : list event)
    : outcome value * list event :=
  let url := root_url +:+ "/oauth2/revoke" in
  let data : gmap string value := {[ "token" := PStr token ]} in
  let headers : gmap string value :=
    {[ "Accept" := PStr "application/json";
       "Content-Type" := PStr "application/x-www-form-urlencoded" ]} in
  let rq := mkRequest POST url headers (DataForm data) None false in
  (match requests_send h rq with
   | Failed e => Raise (RequestException e)
   | Responded response =>
       if negb (resp_status_code response =? 200)%Z then
         match response_json response with
         | Ok body => Raise (DocuSignOAuth2Exception body)
         | Raise e => Raise e
         end
       else Ok PNone
   end, [EvHttp rq]).

Definition get_account_information (account_id' : option value) : M value :=
  self <~ this ;;
  let url :=
    match account_id' with
    | None => account_url self
    | Some _ => "/accounts/" +:+ py_str (account_id self) +:+ "/"
    end in
  get url None None None 200 None.

Definition get_account_provisioning : M value :=
  self <~ this ;;
  let url := "/accounts/provisioning" in
  let headers : gmap string value :=
    {[ "X-DocuSign-AppToken" := PStr (app_token self) ]} in
  get url (Some headers) None None 200 None.

Definition post_account (data : value) : M value :=
  let url := "/accounts" in
  post url None (Some data) None 201 None.

(** [if not self.account_url: self.login_information()], the first
    statement of every account-scoped method. *)
Definition login_if_no_account_url : M unit :=
  self <~ this ;;
  if negb (str_truthy (account_url self))
  then _ <~ login_information ;; ret tt
  else ret tt.

Definition get_envelope (envelope_id : value) : M value :=
  _ <~ login_if_no_account_url ;;
  self <~ this ;;
  let url := "/accounts/" +:+ py_str (account_id self) +:+ "/envelopes/"
             +:+ py_str envelope_id +:+ "/" in
  get url None None None 200 None.

Definition get_envelope_notification (envelope_id : value) : M value :=
  _ <~ login_if_no_account_url ;;
  self <~ this ;;
  let url := "/accounts/" +:+ py_str (account_id self) +:+ "/envelopes/"
             +:+ py_str envelope_id +:+ "/notification/" in
  get url None None None 200 None.

Definition get_envelope_custom_fields (envelope_id : value) : M value :=
  _ <~ login_if_no_account_url ;;
  self <~ this ;;
  let url := "/accounts/" +:+ py_str (account_id self) +:+ "/envelopes/"
             +:+ py_str envelope_id +:+ "/custom_fields/" in
  get url None None None 200 None.

Definition post_envelope_custom_fields (envelope_id text_custom_fields
    list_custom_fields : value) : M value :=
  _ <~ login_if_no_account_url ;;
  self <~ this ;;
  let url := "/accounts/" +:+ py_str (account_id self) +:+ "/envelopes/"
             +:+ py_str envelope_id +:+ "/custom_fields/" in
  let data : gmap string value :=
    {[ "textCustomFields" := text_custom_fields;
       "listCustomFields" := list_custom_fields ]} in
  post url None (Some (PDict data)) None 201 None.

Definition put_envelope_custom_fields (envelope_id text_custom_fields
    list_custom_fields : value) : M value :=
  _ <~ login_if_no_account_url ;;
  self <~ this ;;
  let url := "/accounts/" +:+ py_str (account_id self) +:+ "/envelopes/"
             +:+ py_str envelope_id +:+ "/custom_fields/" in
  let data : gmap string value :=
    {[ "textCustomFields" := text_custom_fields;
       "listCustomFields" := list_custom_fields ]} in
  put url None (Some (PDict data)) None 201 None.

Definition void_envelope (envelope_id voidedReason : value) : M value :=
  _ <~ login_if_no_account_url ;;
  self <~ this ;;
  let url := "/accounts/" +:+ py_str (account_id self) +:+ "/envelopes/"
             +:+ py_str envelope_id +:+ "/" in
  let data : gmap string value :=
    {[ "status" := PStr "voided"; "voidedReason" := voidedReason ]} in
  put url None (Some (PDict data)) None 200 None.

Definition send_envelope (envelope_id : value) : M value :=
  _ <~ login_if_no_account_url ;;
  self <~ this ;;
  let url := "/accounts/" +:+ py_str (account_id self) +:+ "/envelopes/"
             +:+ py_str envelope_id +:+ "/" in
  let data : gmap string value := {[ "status" := PStr "sent" ]} in
  put url None (Some (PDict data)) None 200 None.

Definition delete_envelope (envelope_ids : list value) : M value :=
  _ <~ login_if_no_account_url ;;
  self <~ this ;;
  let url := "/accounts/" +:+ py_str (account_id self)
             +:+ "/folders/recyclebin/" in
  let data : gmap string value :=
    {[ "envelopeIds" := PList envelope_ids ]} in
  put url None (Some (PDict data)) None 200 None.

Definition search_envelopes (custom_field custom_field_value status
    from_date : value) : M value :=
  _ <~ login_if_no_account_url ;;
  self <~ this ;;
  let url := "/accounts/" +:+ py_str (account_id self) +:+ "/envelopes/" in
  let params : gmap string value := {[ "from_date" := from_date ]} in
  let params :=
    if truthy custom_field && truthy custom_field_value
    then <["custom_field" :=
             PStr (py_str custom_field +:+ "=" +:+ py_str custom_field_value)]>
           params
    else params in
  let params :=
    if truthy status then <["status" := status]> params else params in
  get (url +:+ "?" +:+ urlencode params) None None None 200 None.

(** The parts of the POST request for [/envelopes]. *)
Record Parts := mkParts {
  parts_url : string;
  parts_headers : gmap string value;
  parts_body : string;
}.

(** The text one turn of the loop over [envelope.documents] appends. *)
Definition document_part (document : Document) : string :=
  "--myboundary" +:+ CRLF
  +:+ "Content-Type:application/pdf" +:+ CRLF
  +:+ "Content-Disposition: file; "
  +:+ "filename=" +:+ dquote +:+ py_str (doc_name document) +:+ dquote +:+ "; "
  +:+ "documentId=" +:+ py_str (doc_documentId document) +:+ " " +:+ CRLF
  +:+ CRLF
  +:+ (file_read (file_seek 0 (doc_data document))).1 +:+ CRLF
  +:+ CRLF.

(** The document as the loop leaves it: its file read to the end. *)
Definition document_after_read (document : Document) : Document :=
  mkDocument (doc_name document) (doc_documentId document)
    (file_read (file_seek 0 (doc_data document))).2.

Definition docs_body (documents : list Document) : string :=
  foldl (λ docs_body document, docs_body +:+ document_part document) ""
    documents.

Definition document_request_body (data : value) (documents : list Document)
    : string :=
  CRLF
  +:+ CRLF
  +:+ "--myboundary" +:+ CRLF
  +:+ "Content-Type: application/json; charset=UTF-8" +:+ CRLF
  +:+ "Content-Disposition: form-data" +:+ CRLF
  +:+ CRLF
  +:+ json_dumps data +:+ CRLF
  +:+ "--myboundary" +:+ CRLF
  +:+ docs_body documents
  +:+ "--myboundary--" +:+ CRLF
  +:+ CRLF.

Definition template_request_body (data : value) : string :=
  CRLF
  +:+ CRLF
  +:+ "--myboundary" +:+ CRLF
  +:+ "Content-Type: application/json; charset=UTF-8" +:+ CRLF
  +:+ "Content-Disposition: form-data" +:+ CRLF
  +:+ CRLF
  +:+ json_dumps data +:+ CRLF
  +:+ "--myboundary--" +:+ CRLF
  +:+ CRLF.

Definition _create_envelope_from_document_request (envelope : Envelope)
    : M (Parts * Envelope) :=
  _ <~ login_if_no_account_url ;;
  self <~ this ;;
  let url := account_url self +:+ "/envelopes" in
  let data := env_to_dict envelope in
  let body := document_request_body data (env_documents envelope) in
  let envelope :=
    mkEnvelope (env_to_dict envelope)
      (document_after_read <$> env_documents envelope)
      (env_sobo_email envelope) (env_client envelope)
      (env_envelopeId envelope) in
  let headers := base_headers self None in
  let headers :=
    <["Content-Type" := PStr "multipart/form-data; boundary=myboundary"]>
      headers in
  let headers :=
    <["Content-Length" := PInt (Z.of_nat (String.length body))]> headers in
  ret (mkParts url headers body, envelope).

Definition _create_envelope_from_template_request (envelope : Envelope)
    : M (Parts * Envelope) :=
  _ <~ login_if_no_account_url ;;
  self <~ this ;;
  let url := account_url self +:+ "/envelopes" in
  let data := env_to_dict envelope in
  let body := template_request_body data in
  let headers := base_headers self (env_sobo_email envelope) in
  let headers :=
    <["Content-Type" := PStr "multipart/form-data; boundary=myboundary"]>
      headers in
  let headers :=
    <["Content-Length" := PInt (Z.of_nat (String.length body))]> headers in
  ret (mkParts url headers body, envelope).

(** [_create_envelope] mutates the envelope and leaves the client alone: it
    yields the outcome, the envelope as the call leaves it, and the events
    added. [envelope.client] holds the client as it is at that moment. The
    options are set before the transfer: a timeout that [int] cannot
    convert, or whose milliseconds [setopt] cannot take, ends the call
    before anything is sent. *)
Definition _create_envelope (envelope : Envelope) (parts : Parts)
    (self : Client) (h : list event) : outcome value * Envelope * list event :=
  match get_timeout self with
  | Raise e => (Raise e, envelope, [])
  | Ok timeout =>
  match int_of_float (timeout * 1000)%float with
  | Raise e => (Raise e, envelope, [])
  | Ok timeout_ms =>
  match setopt_long timeout_ms with
  | Raise e => (Raise e, envelope, [])
  | Ok timeout_ms =>
  let rq :=
    mkCurl (parts_url parts)
      ((λ kv, kv.1 +:+ ": " +:+ py_str kv.2)
         <$> map_to_list (parts_headers parts))
      (parts_body parts) timeout_ms in
  match curl_perform h rq with
  | CurlFailed e => (Raise (PycurlError e), envelope, [EvCurl rq])
  | Performed response =>
  if negb (status_code response =? 201)%Z
  then (Raise (DocuSignException (ArgResponse response)), envelope, [EvCurl rq])
  else
  match json_loads (text response) with
  | None =>
      (Raise (ValueError "No JSON object could be decoded"), envelope,
       [EvCurl rq])
  | Some response_data =>
  let envelope :=
    match env_client envelope with
    | None => set_env_client self envelope
    | Some _ => envelope
    end in
  if negb (truthy (env_envelopeId envelope)) then
    match getitem_str response_data "envelopeId" with
    | Raise e => (Raise e, envelope, [EvCurl rq])
    | Ok envelopeId =>
        (getitem_str response_data "envelopeId",
         set_env_envelopeId envelopeId envelope, [EvCurl rq])
    end
  else (getitem_str response_data "envelopeId", envelope, [EvCurl rq])
  end end end end end.

(** A request builder followed by [_create_envelope]. *)
Definition create_envelope_with
    (request : Envelope → M (Parts * Envelope)) (envelope : Envelope)
    (self : Client) (h : list event)
    : outcome value * Envelope * Client * list event :=
  match request envelope self h with
  | (Raise e, self1, e1) => (Raise e, envelope, self1, e1)
  | (Ok (parts, envelope1), self1, e1) =>
      match _create_envelope envelope1 parts self1 (h ++ e1) with
      | (r, envelope2, e2) => (r, envelope2, self1, e1 ++ e2)
      end
  end.

Definition create_envelope_from_document :=
  create_envelope_with _create_envelope_from_document_request.

Definition create_envelope_from_template :=
  create_envelope_with _create_envelope_from_template_request.

Definition get_envelope_recipients (envelopeId : value) : M value :=
  _ <~ login_if_no_account_url ;;
  self <~ this ;;
  let url := "/accounts/" +:+ py_str (account_id self) +:+ "/envelopes/"
             +:+ py_str envelopeId +:+ "/recipients" in
  get url None None None 200 None.

Definition post_recipient_view (authenticationMethod : option value)
    (clientUserId email envelopeId returnUrl userId userName : value)
    : M value :=
  _ <~ login_if_no_account_url ;;
  self <~ this ;;
  let url := "/accounts/" +:+ py_str (account_id self) +:+ "/envelopes/"
             +:+ py_str envelopeId +:+ "/views/recipient" in
  let authenticationMethod := default (PStr "none") authenticationMethod in
  let data : gmap string value :=
    {[ "authenticationMethod" := authenticationMethod;
       "clientUserId" := clientUserId;
       "email" := email;
       "envelopeId" := envelopeId;
       "returnUrl" := returnUrl;
       "userId" := userId;
       "userName" := userName ]} in
  post url None (Some (PDict data)) None 201 None.

Definition put_envelope_recipients (envelope_id data : value)
    (params : gmap string value) : M value :=
  _ <~ login_if_no_account_url ;;
  self <~ this ;;
  let url := "/accounts/" +:+ py_str (account_id self) +:+ "/envelopes/"
             +:+ py_str envelope_id +:+ "/recipients/" in
  let url := url +:+ "?" +:+ urlencode params in
  put url None (Some data) None 200 None.

Definition get_envelope_document_list (envelopeId : value) : M value :=
  _ <~ login_if_no_account_url ;;
  self <~ this ;;
  let url := "/accounts/" +:+ py_str (account_id self) +:+ "/envelopes/"
             +:+ py_str envelopeId +:+ "/documents" in
  data <~ get url None None None 200 None ;;
  lift (getitem_str data "envelopeDocuments").

(** [requests.get(url, headers=headers, stream=True)], as the two download
    methods call it: no timeout, and a [RequestException] is not caught. The
    response stands for its raw stream, which the methods return. *)
Definition requests_get_stream (url : string) (headers : gmap string value)
    : M http_response :=
  answer <~ requests_call (mkRequest GET url headers DataNone None true) ;;
  match answer with
  | Failed e => raise (RequestException e)
  | Responded response => ret response
  end.

Definition get_envelope_document (envelopeId documentId : value)
    : M http_response :=
  _ <~ login_if_no_account_url ;;
  self <~ this ;;
  let url := root_url self +:+ "/accounts/" +:+ py_str (account_id self)
             +:+ "/envelopes/" +:+ py_str envelopeId
             +:+ "/documents/" +:+ py_str documentId in
  let headers := base_headers self None in
  requests_get_stream url headers.

Definition download_envelope_documents (envelope_id watermark
    certificate : value) : M http_response :=
  _ <~ login_if_no_account_url ;;
  self <~ this ;;
  let params : gmap string value :=
    {[ "watermark" := watermark; "certificate" := certificate ]} in
  let url := root_url self +:+ "/accounts/" +:+ py_str (account_id self)
             +:+ "/envelopes/" +:+ py_str envelope_id
             +:+ "/documents/combined/" in
  let url := url +:+ "?" +:+ urlencode params in
  let headers := base_headers self None in
  requests_get_stream url headers.

Definition upload_document_to_envelope (envelope_id document_id content_type
    filename : value) (file_data : option string) : M value :=
  _ <~ login_if_no_account_url ;;
  self <~ this ;;
  let url := "/accounts/" +:+ py_str (account_id self) +:+ "/envelopes/"
             +:+ py_str envelope_id +:+ "/documents/" +:+ py_str document_id in
  let headers : gmap string value :=
    {[ "Content-Disposition" :=
         PStr ("filename=" +:+ dquote +:+ py_str filename +:+ dquote);
       "Content-Type" := content_type ]} in
  put url (Some headers) None file_data 200 None.

Definition delete_envelope_documents (envelope_id document_ids : value)
    : M value :=
  _ <~ login_if_no_account_url ;;
  self <~ this ;;
  let url := "/accounts/" +:+ py_str (account_id self) +:+ "/envelopes/"
             +:+ py_str envelope_id +:+ "/documents/" in
  let document_ids :=
    if is_iterable document_ids then document_ids else PList [document_ids] in
  items <~ lift (py_iter document_ids) ;;
  let document_list :=
    (λ document_id, PDict {[ "documentId" := document_id ]}) <$> items in
  let data : gmap string value :=
    match document_list with
    | [] => ∅
    | _ :: _ => {[ "documents" := PList document_list ]}
    end in
  delete url None (Some (PDict data)) None 200 None.

Definition get_template (templateId : value) : M value :=
  _ <~ login_if_no_account_url ;;
  self <~ this ;;
  let url := "/accounts/" +:+ py_str (account_id self) +:+ "/templates/"
             +:+ py_str templateId in
  get url None None None 200 None.

(** Equality of dictionary keys that are [None], booleans, integers or
    strings; [True == 1] and [False == 0] in Python. *)
Definition scalar_eqb (a b : value) : bool :=
  match a, b with
  | PNone, PNone => true
  | PBool x, PBool y => Bool.eqb x y
  | PInt x, PInt y => (x =? y)%Z
  | PBool x, PInt y | PInt y, PBool x => ((if x then 1 else 0) =? y)%Z
  | PStr x, PStr y => String.eqb x y
  | _, _ => false
  end.

(** [event[key] = val] on a dictionary kept as an association list. *)
Fixpoint event_set (key val : value) (event : list (value * value))
    : list (value * value) :=
  match event with
  | [] => [(key, val)]
  | (k, v) :: rest =>
      if scalar_eqb k key then (k, val) :: rest
      else (k, v) :: event_set key val rest
  end.

(** The inner loop of [get_audit_events] over the fields of one event. *)
Fixpoint audit_event_fields (fields : list value)
    (event : list (value * value)) : outcome (list (value * value)) :=
  match fields with
  | [] => Ok event
  | event_field :: rest =>
      match dict_get event_field "value" with
      | Raise e => Raise e
      | Ok val =>
          match dict_get event_field "name" with
          | Raise e => Raise e
          | Ok name =>
              if hashable name
              then audit_event_fields rest (event_set name val event)
              else Raise TypeError
          end
      end
  end.

(** The outer loop of [get_audit_events]. *)
Fixpoint audit_events (items : list value)
    (events : list (list (value * value)))
    : outcome (list (list (value * value))) :=
  match items with
  | [] => Ok events
  | audit_event :: rest =>
      match dict_get audit_event "eventFields" with
      | Raise e => Raise e
      | Ok fields =>
          match py_iter fields with
          | Raise e => Raise e
          | Ok fields =>
              match audit_event_fields fields [] with
              | Raise e => Raise e
              | Ok event => audit_events rest (events ++ [event])
              end
          end
      end
  end.

(** The method returns [events], a list of dictionaries. Their keys are
    whatever the fields name, not only strings, so each dictionary is kept
    as the association list that [event_set] maintains, in the order in
    which the keys were first set. *)
Definition get_audit_events (envelopeId : value)
    : M (list (list (value * value))) :=
  _ <~ login_if_no_account_url ;;
  self <~ this ;;
  let url := "/accounts/" +:+ py_str (account_id self) +:+ "/envelopes/"
             +:+ py_str envelopeId +:+ "/audit_events" in
  data <~ get url None None None 200 None ;;
  listed <~ lift (dict_get data "auditEvents") ;;
  items <~ lift (py_iter listed) ;;
  events <~ lift (audit_events items []) ;;
  ret events.

(** ** The account-scoped operations, as one family *)

Inductive account_operation :=
  | Op_get_envelope (envelope_id : value)
  | Op_void_envelope (envelope_id voidedReason : value)
  | Op_send_envelope (envelope_id : value)
  | Op_delete_envelope (envelope_ids : list value)
  | Op_search_envelopes (custom_field custom_field_value status
      from_date : value)
  | Op_get_envelope_notification (envelope_id : value)
  | Op_get_envelope_custom_fields (envelope_id : value)
  | Op_post_envelope_custom_fields (envelope_id text_custom_fields
      list_custom_fields : value)
  | Op_put_envelope_custom_fields (envelope_id text_custom_fields
      list_custom_fields : value)
  | Op_get_envelope_recipients (envelopeId : value)
  | Op_post_recipient_view (authenticationMethod : option value)
      (clientUserId email envelopeId returnUrl userId userName : value)
  | Op_put_envelope_recipients (envelope_id data : value)
      (params : gmap string value)
  | Op_get_envelope_document_list (envelopeId : value)
  | Op_get_envelope_document (envelopeId documentId : value)
  | Op_download_envelope_documents (envelope_id watermark certificate : value)
  | Op_upload_document_to_envelope (envelope_id document_id content_type
      filename : value) (file_data : option string)
  | Op_delete_envelope_documents (envelope_id document_ids : value)
  | Op_get_template (templateId : value)
  | Op_get_audit_events (envelopeId : value)
  | Op_create_envelope_from_document_request (envelope : Envelope)
  | Op_create_envelope_from_template_request (envelope : Envelope).

(** Run [m] for its effects. *)
Definition void {A} (m : M A) : M unit := _ <~ m ;; ret tt.

(** The method an operation names, run for its effects on the client and on
    the outside world. *)
Definition perform (op : account_operation) : M unit :=
  match op with
  | Op_get_envelope i => void (get_envelope i)
  | Op_void_envelope i r => void (void_envelope i r)
  | Op_send_envelope i => void (send_envelope i)
  | Op_delete_envelope l => void (delete_envelope l)
  | Op_search_envelopes a b c d => void (search_envelopes a b c d)
  | Op_get_envelope_notification i => void (get_envelope_notification i)
  | Op_get_envelope_custom_fields i => void (get_envelope_custom_fields i)
  | Op_post_envelope_custom_fields i t l =>
      void (post_envelope_custom_fields i t l)
  | Op_put_envelope_custom_fields i t l =>
      void (put_envelope_custom_fields i t l)
  | Op_get_envelope_recipients i => void (get_envelope_recipients i)
  | Op_post_recipient_view a c e i r u n =>
      void (post_recipient_view a c e i r u n)
  | Op_put_envelope_recipients i d p => void (put_envelope_recipients i d p)
  | Op_get_envelope_document_list i => void (get_envelope_document_list i)
  | Op_get_envelope_document i d => void (get_envelope_document i d)
  | Op_download_envelope_documents i w c =>
      void (download_envelope_documents i w c)
  | Op_upload_document_to_envelope i d c f x =>
      void (upload_document_to_envelope i d c f x)
  | Op_delete_envelope_documents i d => void (delete_envelope_documents i d)
  | Op_get_template i => void (get_template i)
  | Op_get_audit_events i => void (get_audit_events i)
  | Op_create_envelope_from_document_request e =>
      void (_create_envelope_from_document_request e)
  | Op_create_envelope_from_template_request e =>
      void (_create_envelope_from_template_request e)
  end.

End client.

(** ** Sample collaborators

    A stand-in for the libraries and the server, used to run the model on
    concrete inputs: the decoder is a table of the bodies an example meets,
    and the encoder is right on the empty dictionary, the only value the
    examples encode. *)
Definition sample_externals (decoded : list (string * value))
    (server : list event → http_request → http_result)
    (curl : list event → curl_request → curl_result) : Externals :=
  {| json_dumps := λ _, "{}";
     json_loads := λ s, (list_to_map decoded : gmap string value) !! s;
     py_repr := λ _, "[...]";
     urlencode := λ _, "";
     float_of_str := λ _, None;
     requests_send := server;
     curl_perform := curl |}.

(** A server that is never reached. *)
Definition no_server : list event → http_request → http_result :=
  λ _ _, Failed "unreachable".
Definition no_curl : list event → curl_request → curl_result :=
  λ _ _, CurlFailed "unreachable".

(** A client with user name, password and integrator key, and one with an
    OAuth2 token; both know their account. *)
Definition sample_client : Client :=
  mkClient "https://demo.docusign.net/restapi/v2" "user" "secret" "key"
    (PStr "42") "" "" "https://demo.docusign.net/restapi/v2/accounts/42"
    (Some 30%float).

Definition sample_oauth_client : Client :=
  mkClient "https://demo.docusign.net/restapi/v2" "" "" "" (PStr "42") ""
    "token" "https://demo.docusign.net/restapi/v2/accounts/42"
    (Some 30%float).

(** [s] between double quotes. *)
Definition quoted (s : string) : string := dquote +:+ s +:+ dquote.

Definition json_content_type : gmap string string :=
  {[ "Content-Type" := "application/json; charset=utf-8" ]}.

(** A page of HTML sent with status 200 and declared as JSON. *)
Definition undecodable_200 : http_response :=
  mkHttpResponse 200 json_content_type "<html>".

(** A plain-text 404. *)
Definition not_found_404 : http_response :=
  mkHttpResponse 404 {[ "Content-Type" := "text/plain" ]} "Not Found".

(** A plain-text 200. *)
Definition plain_200 : http_response :=
  mkHttpResponse 200 {[ "Content-Type" := "text/plain" ]} "pong".

(** An empty JSON object with status 200. *)
Definition empty_object_200 : http_response :=
  mkHttpResponse 200 json_content_type "{}".

(** A server with one answer to everything. *)
Definition always (r : http_response)
    : list event → http_request → http_result :=
  λ _ _, Responded r.

(** The request [login_information] sends. *)
Definition login_request {ext : Externals} (self : Client) (timeout : float)
    : http_request :=
  request_of self "/login_information" GET (Some ∅) None None None timeout.

(** The requests of the two OAuth2 class methods. *)
Definition oauth2_token_request_sent (root_url username password
    integrator_key : string) : http_request :=
  mkRequest POST (root_url +:+ "/oauth2/token")
    {[ "Accept" := PStr "application/json";
       "Content-Type" := PStr "application/x-www-form-urlencoded" ]}
    (DataForm {[ "grant_type" := PStr "password";
                 "client_id" := PStr integrator_key;
                 "username" := PStr username;
                 "password" := PStr password;
                 "scope" := PStr "api" ]})
    None false.

Definition oauth2_token_revoke_sent (root_url token : string) : http_request :=
  mkRequest POST (root_url +:+ "/oauth2/revoke")
    {[ "Accept" := PStr "application/json";
       "Content-Type" := PStr "application/x-www-form-urlencoded" ]}
    (DataForm {[ "token" := PStr token ]})
    None false.

(** The transfer [_create_envelope] sets up for [parts]. *)
Definition curl_request_of {ext : Externals} (parts : Parts) (timeout_ms : Z)
    : curl_request :=
  mkCurl (parts_url parts)
    ((λ kv, kv.1 +:+ ": " +:+ py_str kv.2)
       <$> map_to_list (parts_headers parts))
    (parts_body parts) timeout_ms.

(** The envelope as a successful [_create_envelope] leaves it. *)
Definition envelope_created (self : Client) (envelopeId : value)
    (envelope : Envelope) : Envelope :=
  mkEnvelope (env_to_dict envelope) (env_documents envelope)
    (env_sobo_email envelope)
    (match env_client envelope with
     | None => Some self
     | Some client => Some client
     end)
    (if truthy (env_envelopeId envelope) then env_envelopeId envelope
     else envelopeId).

(** The envelope as [_create_envelope] leaves it when the answer decoded and
    the [envelopeId] could not be read from it. *)
Definition envelope_adopted (self : Client) (envelope : Envelope) : Envelope :=
  mkEnvelope (env_to_dict envelope) (env_documents envelope)
    (env_sobo_email envelope)
    (match env_client envelope with
     | None => Some self
     | Some client => Some client
     end)
    (env_envelopeId envelope).

(** A 201 whose body is the empty JSON object. *)
Definition created_without_id : Response := mkResponse 201 "{}".

(** A computation that never enters [login_information]. *)
Definition login_free {A} (m : M A) : Prop :=
  ∀ self h, EvLogin ∉ events_of (m self h).

(** *** The framing of a multipart message, as the specification words it

    The lines of [s], which CRLF ends. *)
Fixpoint crlf_lines_from (s line : string) : list string :=
  match s with
  | EmptyString => [String.rev line]
  | String "013"%char (String "010"%char rest) =>
      String.rev line :: crlf_lines_from rest ""
  | String c rest => crlf_lines_from rest (String c line)
  end.

Definition crlf_lines (s : string) : list string := crlf_lines_from s "".

(** The parts that the delimiter lines [--boundary] frame, each as its
    lines, up to the closing delimiter [--boundary--]. What precedes the
    first delimiter is the preamble and is no part. *)
Fixpoint framed_parts (boundary : string) (lines : list string)
    (part : option (list string)) : list (list string) :=
  match lines with
  | [] => []
  | line :: rest =>
      let done :=
        match part with
        | Some p => [reverse p]
        | None => []
        end in
      if String.eqb line ("--" +:+ boundary +:+ "--") then done
      else if String.eqb line ("--" +:+ boundary)
      then done ++ framed_parts boundary rest (Some [])
      else framed_parts boundary rest (cons line <$> part)
  end.

Definition multipart_parts (boundary body : string) : list (list string) :=
  framed_parts boundary (crlf_lines body) None.

(** An envelope with one document, whose file was left at position 5. *)
Definition sample_document : Document :=
  mkDocument (PStr "contract.pdf") (PInt 1) (mkFile "%PDF-1.4 sample" 5).

Definition sample_envelope : Envelope :=
  mkEnvelope (PDict ∅) [sample_document] None None (PStr "").

(** A gateway's error page: status 502 and a body that is not JSON. *)
Definition bad_gateway_502 : http_response :=
  mkHttpResponse 502 {[ "Content-Type" := "text/html" ]}
    "<html>Bad Gateway</html>".

(** An OAuth2 refusal, with its JSON text and what it decodes to. *)
Definition invalid_grant_text : string :=
  "{" +:+ quoted "error" +:+ ": " +:+ quoted "invalid_grant" +:+ "}".

Definition invalid_grant_400 : http_response :=
  mkHttpResponse 400 json_content_type invalid_grant_text.

(** A granted token. *)
Definition token_text : string :=
  "{" +:+ quoted "access_token" +:+ ": " +:+ quoted "abc" +:+ "}".

Definition token_200 : http_response :=
  mkHttpResponse 200 json_content_type token_text.

(** The answer to a login, with its JSON text and what it decodes to. *)
Definition login_text : string :=
  "{" +:+ quoted "loginAccounts" +:+ ": [{" +:+ quoted "accountId" +:+ ": "
  +:+ quoted "42" +:+ "}]}".

Definition login_data : value :=
  PDict {[ "loginAccounts" := PList [PDict {[ "accountId" := PStr "42" ]}] ]}.

Definition login_200 : http_response :=
  mkHttpResponse 200 json_content_type login_text.

(** The answer to an envelope creation. *)
Definition created_text : string :=
  "{" +:+ quoted "envelopeId" +:+ ": " +:+ quoted "e-1" +:+ "}".

Definition created_data : value := PDict {[ "envelopeId" := PStr "e-1" ]}.

(** The bodies the examples decode. *)
Definition sample_bodies : list (string * value) :=
  [ ("{}", PDict ∅);
    (invalid_grant_text, PDict {[ "error" := PStr "invalid_grant" ]});
    (token_text, PDict {[ "access_token" := PStr "abc" ]});
    (login_text, login_data);
    (created_text, created_data) ].

(** A [pycurl] transfer that always ends with [r]. *)
Definition always_curl (r : Response)
    : list event → curl_request → curl_result :=
  λ _ _, Performed r.

(** A client that has not logged in yet. *)
Definition fresh_client : Client :=
  mkClient "https://demo.docusign.net/restapi/v2" "" "" "" (PStr "") ""
    "token" "" (Some 30%float).

(** Parts of a request, and an envelope that already has its identifier. *)
Definition sample_parts : Parts :=
  mkParts "https://demo.docusign.net/restapi/v2/accounts/42/envelopes"
    {[ "Content-Type" := PStr "multipart/form-data; boundary=myboundary" ]}
    "--myboundary--".

Definition identified_envelope : Envelope :=
  mkEnvelope (PDict ∅) [] None (Some sample_client) (PStr "mine").

(** A computation that leaves the client as it found it. *)
Definition client_stable {A} (m : M A) : Prop :=
  ∀ self h, client_of (m self h) = self.

(** A computation that causes no event. *)
Definition silent {A} (m : M A) : Prop :=
  ∀ self h, events_of (m self h) = [].

(** A computation that calls [requests] at most once, and logs at most the
    failure of that call. *)
Definition single_shot {A} (m : M A) : Prop :=
  ∀ self h,
    events_of (m self h) = []
    ∨ ∃ rq, events_of (m self h) = [EvHttp rq]
            ∨ ∃ msg, events_of (m self h) = [EvHttp rq; EvLogError msg].

(** A server that cannot be reached. *)
Definition unreachable (e : string)
    : list event → http_request → http_result :=
  λ _ _, Failed e.

(** [s] holds no carriage return, so it is one line. *)
Fixpoint no_cr (s : string) : bool :=
  match s with
  | EmptyString => true
  | String c r => negb (Ascii.eqb c "013") && no_cr r
  end.

(** [line] is neither the delimiter line nor the closing delimiter line of
    the boundary [myboundary]. *)
Definition plain_line (line : string) : bool :=
  negb (String.eqb line "--myboundary")
  && negb (String.eqb line "--myboundary--").

(** The segments [segs], each followed by CRLF. *)
Definition crlf_joined (segs : list string) : string :=
  foldr (λ seg rest, seg +:+ CRLF +:+ rest) "" segs.

(** The lines of the JSON part of a request body. *)
Definition json_part_lines {ext : Externals} (data : value) : list string :=
  [ "Content-Type: application/json; charset=UTF-8";
    "Content-Disposition: form-data";
    "";
    json_dumps data ].

(** The [Content-Disposition] line of a document's part. *)
Definition disposition_line {ext : Externals} (document : Document)
    : string :=
  "Content-Disposition: file; "
  +:+ "filename=" +:+ dquote +:+ py_str (doc_name document) +:+ dquote +:+ "; "
  +:+ "documentId=" +:+ py_str (doc_documentId document) +:+ " ".

(** The lines of a document's part: two header lines, an empty line, the
    lines of the file and the empty line that the template adds. *)
Definition document_part_lines {ext : Externals} (document : Document)
    : list string :=
  [ "Content-Type:application/pdf"; disposition_line document; "" ]
  ++ crlf_lines (file_content (doc_data document)) ++ [ "" ].

(** A document whose name and identifier hold no carriage return and whose
    file holds no line that is a delimiter. *)
Definition frameable {ext : Externals} (document : Document) : Prop :=
  no_cr (py_str (doc_name document)) = true
  ∧ no_cr (py_str (doc_documentId document)) = true
  ∧ Forall (λ line, plain_line line = true)
      (crlf_lines (file_content (doc_data document))).

(** A document whose file has two lines, left at its end. *)
Definition two_line_document : Document :=
  mkDocument (PStr "terms.pdf") (PInt 2)
    (mkFile ("%PDF-1.4" +:+ CRLF +:+ "%%EOF") 15).

(** A server error of the envelope endpoint. *)
Definition curl_error_500 : Response := mkResponse 500 "Internal Server Error".

(** Whether an integer fits a C long. *)
Definition fits_long (n : Z) : Prop := (- 2 ^ 63 ≤ n < 2 ^ 63)%Z.

(** A client whose timeout is 1e16 seconds. *)
Definition patient_client : Client :=
  set__timeout (Some 1e16%float) sample_oauth_client.




(** * Properties *)

(** ** The timeout property *)

Lemma Prim2SF_nan (f : float) : Prim2SF f = S754_nan ↔ is_nan f = true.
Proof.
  unfold Prim2SF. destruct (is_nan f); [done|].
  split; [|done]. destruct (is_zero f); [done|].
  destruct (is_infinity f); [done|].
  destruct (Z.frexp f) as [r e].
  destruct (shr_fexp _ _ _ _ _) as [shr e'].
  by destruct (shr_m shr).
Qed.

Lemma int_of_float_ValueError (f : float) :
  (∃ msg, int_of_float f = Raise (ValueError msg)) ↔ is_nan f = true.
Proof.
  rewrite <- Prim2SF_nan. unfold int_of_float.
  destruct (Prim2SF f); split; intros H; try done; try (by destruct H); eauto.
Qed.

Lemma float_of_int_no_ValueError (z : Z) (msg : string) :
  float_of_int z ≠ Raise (ValueError msg).
Proof. unfold float_of_int. by destruct (is_infinity _). Qed.

Lemma setopt_long_Raise (n : Z) (e : exn) :
  setopt_long n = Raise e → ∃ msg, e = OverflowError msg.
Proof. unfold setopt_long. destruct (_ && _); intros [= <-]. eauto. Qed.

Section timeout.
Context {ext : Externals}.

Lemma truncate_ms_ValueError (value : number) :
  (∃ msg, truncate_ms value = Raise (ValueError msg))
  ↔ ∃ f, value = NFloat f ∧ is_nan (f * 1000)%float = true.
Proof.
  unfold truncate_ms. destruct value as [z|f]; simpl.
  - split; [intros [msg H]|by intros (f & ? & _)].
    destruct (float_of_int (z * 1000)) eqn:E; [done|].
    injection H as ->. by apply float_of_int_no_ValueError in E.
  - split.
    + intros [msg H]. exists f. split; [done|].
      apply int_of_float_ValueError.
      destruct (int_of_float (f * 1000)) as [n|e] eqn:E.
      * destruct (float_of_int n) eqn:E'; [done|].
        injection H as ->. by apply float_of_int_no_ValueError in E'.
      * injection H as ->. eauto.
    + intros (f' & [= <-] & H).
      apply int_of_float_ValueError in H as [msg ->]. eauto.
Qed.

(** Setting 1.2345 and reading back yields 1.234, as the doctest of the
    property says. *)
Lemma set_timeout_doctest (self : Client) :
  set_timeout (NFloat 1.2345) self = Ok (set__timeout (Some 1.234%float) self).
Proof. reflexivity. Qed.

(** Setting 0.0009 is refused, as the doctest of the property says. *)
Lemma set_timeout_doctest_low (self : Client) :
  set_timeout (NFloat 0.0009) self
  = Raise (ValueError "Cannot set timeout lower than 0.001").
Proof. reflexivity. Qed.

(** C8, as stated, fails on NaN: it is not lower than 0.001, and the setter
    still raises [ValueError], from [int()]. On an infinite value nothing
    is stored either, with an [OverflowError]. *)
Lemma set_timeout_nan_raises :
  lower_than_ms (NFloat nan) = false
  ∧ set_timeout (NFloat nan) sample_client
    = Raise (ValueError "cannot convert float NaN to integer")
  ∧ lower_than_ms (NFloat infinity) = false
  ∧ set_timeout (NFloat infinity) sample_client
    = Raise (OverflowError "cannot convert float infinity to integer").
Proof. repeat split. Qed.

(** C8, amended. The setter raises [ValueError] exactly when the value is
    lower than 0.001 or [value * 1000] is NaN; it stores a timeout exactly
    when the value is not lower than 0.001 and [int(value * 1000) / 1000.]
    evaluates, and then stores that float; setting 1.2345 stores 1.234; and
    construction with [timeout=None] runs the same setter on 30.0, or on
    the float read from [DOCUSIGN_TIMEOUT], so it stores 30.0 when the
    variable is unset. *)
Theorem set_timeout_spec (value : number) (self : Client) :
  ((∃ msg, set_timeout value self = Raise (ValueError msg))
   ↔ lower_than_ms value = true
     ∨ ∃ f, value = NFloat f ∧ is_nan (f * 1000)%float = true)
  ∧ (∀ self', set_timeout value self = Ok self'
     ↔ lower_than_ms value = false
       ∧ ∃ t, truncate_ms value = Ok t ∧ self' = set__timeout (Some t) self)
  ∧ set_timeout (NFloat 1.2345) self
    = Ok (set__timeout (Some 1.234%float) self)
  ∧ get_timeout (set__timeout (Some 1.234%float) self) = Ok 1.234%float
  ∧ (∀ environ r u p k a au tk ot,
       __init__ environ r u p k a au tk ot None
       = match environ !! "DOCUSIGN_TIMEOUT" with
         | None =>
             Ok (set__timeout (Some 30%float)
                   (init_attributes environ r u p k a au tk ot))
         | Some s =>
             match float_of_str s with
             | None => Raise (ValueError "could not convert string to float")
             | Some f =>
                 set_timeout (NFloat f)
                   (init_attributes environ r u p k a au tk ot)
             end
         end).
Proof.
  repeat split.
  - intros [msg H]. unfold set_timeout in H.
    destruct (lower_than_ms value); [by left|right].
    apply truncate_ms_ValueError.
    destruct (truncate_ms value) as [t|e]; [done|].
    injection H as ->. eauto.
  - intros [H|H]; unfold set_timeout.
    + rewrite H. eauto.
    + destruct (lower_than_ms value); [eauto|].
      apply truncate_ms_ValueError in H as [msg ->]. eauto.
  - unfold set_timeout in H. by destruct (lower_than_ms value).
  - unfold set_timeout in H. destruct (lower_than_ms value); [done|].
    destruct (truncate_ms value) as [t|e]; [|done].
    injection H as <-. eauto.
  - intros (Hl & t & Ht & ->). unfold set_timeout. by rewrite Hl, Ht.
  - intros. unfold __init__, environ_timeout.
    destruct (environ !! "DOCUSIGN_TIMEOUT") as [s|]; [|done].
    by destruct (float_of_str s).
Qed.

End timeout.

(** ** Headers *)

Section headers.
Context {ext : Externals}.

(** C2. [base_headers] always holds [Accept] and [Content-Type], both
    [application/json]. With a non-empty [oauth2_token] it holds
    [Authorization], the token after ['Bearer '], no
    [X-DocuSign-Authentication], and [X-DocuSign-Act-As-User] for a
    [sobo_email] that is given (neither [None] nor empty). With an empty
    [oauth2_token] it holds no [Authorization], and
    [X-DocuSign-Authentication] is the JSON text of the dictionary of
    [Username], [Password] and [IntegratorKey], with [SendOnBehalfOf] added
    for a [sobo_email] that is given. *)
Theorem base_headers_spec (self : Client) (sobo_email : option string) :
  let headers := base_headers self sobo_email in
  headers !! "Accept" = Some (PStr "application/json")
  ∧ headers !! "Content-Type" = Some (PStr "application/json")
  ∧ (oauth2_token self ≠ "" →
     headers !! "Authorization"
     = Some (PStr ("Bearer " +:+ oauth2_token self))
     ∧ headers !! "X-DocuSign-Authentication" = None
     ∧ (∀ email, sobo_email = Some email → email ≠ "" →
        headers !! "X-DocuSign-Act-As-User" = Some (PStr email))
     ∧ (opt_truthy sobo_email = false →
        headers !! "X-DocuSign-Act-As-User" = None))
  ∧ (oauth2_token self = "" →
     headers !! "Authorization" = None
     ∧ headers !! "X-DocuSign-Act-As-User" = None
     ∧ (∀ email, sobo_email = Some email → email ≠ "" →
        headers !! "X-DocuSign-Authentication"
        = Some (PStr (json_dumps (PDict
            {[ "Username" := PStr (username self);
               "Password" := PStr (password self);
               "IntegratorKey" := PStr (integrator_key self);
               "SendOnBehalfOf" := PStr email ]}))))
     ∧ (opt_truthy sobo_email = false →
        headers !! "X-DocuSign-Authentication"
        = Some (PStr (json_dumps (PDict
            {[ "Username" := PStr (username self);
               "Password" := PStr (password self);
               "IntegratorKey" := PStr (integrator_key self) ]}))))).
Proof.
  unfold base_headers. simpl.
  destruct (oauth2_token self) as [|c token] eqn:Htoken;
    destruct sobo_email as [[|c' email']|]; simpl;
    split_and!; try done; intros; split_and!; intros; simplify_eq; done.
Qed.

End headers.

(** ** The generic request helper *)

Section request.
Context {ext : Externals}.

(** One run of [_request], spelled out. *)
Lemma _request_run url method headers data file_data expected_status_code
    sobo_email (self : Client) (h : list event) :
  _request url method headers data file_data expected_status_code sobo_email
    self h
  = match _timeout self with
    | None => (Raise AttributeError, self, [])
    | Some timeout =>
        let rq := request_of self url method headers data file_data
                    sobo_email timeout in
        match requests_send h rq with
        | Failed exception =>
            let msg :=
              request_error_msg method (root_url self +:+ url) exception in
            (Raise (DocuSignException (ArgMsg msg)), self,
             [EvHttp rq; EvLogError msg])
        | Responded response =>
            if negb (resp_status_code response =? expected_status_code)%Z
            then
              let msg :=
                request_failed_msg method (root_url self +:+ url)
                  expected_status_code response in
              (Raise (DocuSignException (ArgMsg msg)), self,
               [EvHttp rq; EvLogError msg])
            else if String.prefix "application/json"
                      (default "" (resp_headers response !! "Content-Type"))
            then (response_json response, self, [EvHttp rq])
            else (Ok (PStr (resp_text response)), self, [EvHttp rq])
        end
    end.
Proof.
  unfold _request, bind, this, lift, get_timeout, requests_call.
  destruct (_timeout self) as [timeout|]; [|done]. simpl.
  rewrite !app_nil_r.
  destruct (requests_send _ _) as [response|exception]; [|done].
  destruct (negb _); [done|].
  destruct (String.prefix _ _); [|done].
  by destruct (response_json response).
Qed.

(** [_request] leaves the client as it found it. *)
Lemma _request_client url method headers data file_data expected_status_code
    sobo_email (self : Client) (h : list event) :
  client_of (_request url method headers data file_data expected_status_code
               sobo_email self h) = self.
Proof.
  rewrite _request_run. destruct (_timeout self); [|done]. simpl.
  destruct (requests_send _ _); [|done].
  destruct (negb _); [done|]. by destruct (String.prefix _ _).
Qed.

Lemma getitem_str_Raise (v : value) (k : string) (e : exn) :
  getitem_str v k = Raise e → e = KeyError (PStr k) ∨ e = TypeError.
Proof.
  destruct v; simpl; try (intros [= <-]; by right).
  destruct (m !! k); [done|]. intros [= <-]. by left.
Qed.

Lemma getitem_str_no_DocuSignException (v : value) (k : string) a :
  getitem_str v k ≠ Raise (DocuSignException a).
Proof. intros H. by apply getitem_str_Raise in H as [|]. Qed.

(** One run of [_create_envelope] up to the status check. *)
Lemma _create_envelope_status envelope parts (self : Client) (h : list event)
    timeout timeout_ms response :
  _timeout self = Some timeout →
  int_of_float (timeout * 1000)%float = Ok timeout_ms →
  setopt_long timeout_ms = Ok timeout_ms →
  curl_perform h (curl_request_of parts timeout_ms) = Performed response →
  ((status_code response ≠ 201)%Z →
   (_create_envelope envelope parts self h).1
   = (Raise (DocuSignException (ArgResponse response)), envelope))
  ∧ ((status_code response = 201)%Z →
     ∀ a, (_create_envelope envelope parts self h).1.1
          ≠ Raise (DocuSignException a)).
Proof.
  intros Ht Hms Hfit Hc. unfold _create_envelope, get_timeout.
  unfold curl_request_of in Hc. rewrite Ht, Hms, Hfit, Hc. split.
  - intros Hne. apply Z.eqb_neq in Hne. by rewrite Hne.
  - intros ->. simpl. intros a.
    destruct (json_loads (text response)) as [response_data|]; [|done].
    pose proof (getitem_str_no_DocuSignException response_data "envelopeId" a).
    destruct (negb (truthy _)); [|done].
    by destruct (getitem_str response_data "envelopeId").
Qed.

(** C1, amended. Whenever [_request] gets a response: a status code other
    than the expected one raises [DocuSignException], built from a message
    that names the method, the URL, both status codes and the response
    text, and logs that message; the expected status code raises no
    [DocuSignException], and the call returns unless the body is declared
    as JSON and does not decode, in which case the decoder's [ValueError]
    comes out. [get], [post], [put] and [delete] are [_request] with their
    method. [_create_envelope], once [pycurl] has taken the timeout and
    performed, raises [DocuSignException] carrying the [Response] tuple
    exactly when the status code is not 201. *)
Theorem status_check url method headers data file_data expected_status_code
    sobo_email (self : Client) (h : list event) timeout response :
  _timeout self = Some timeout →
  requests_send h (request_of self url method headers data file_data
                     sobo_email timeout) = Responded response →
  let run := _request url method headers data file_data expected_status_code
               sobo_email self h in
  (resp_status_code response ≠ expected_status_code →
   result_of run
   = Raise (DocuSignException (ArgMsg
       (request_failed_msg method (root_url self +:+ url)
          expected_status_code response))))
  ∧ (resp_status_code response = expected_status_code →
     (∀ a, result_of run ≠ Raise (DocuSignException a))
     ∧ (∀ e, result_of run = Raise e →
        e = ValueError "No JSON object could be decoded"
        ∧ String.prefix "application/json"
            (default "" (resp_headers response !! "Content-Type")) = true
        ∧ json_loads (resp_text response) = None))
  ∧ get url headers data file_data expected_status_code sobo_email
    = _request url GET headers data file_data expected_status_code sobo_email
  ∧ post url headers data file_data expected_status_code sobo_email
    = _request url POST headers data file_data expected_status_code sobo_email
  ∧ put url headers data file_data expected_status_code sobo_email
    = _request url PUT headers data file_data expected_status_code sobo_email
  ∧ delete url headers data file_data expected_status_code sobo_email
    = _request url DELETE headers data file_data expected_status_code
        sobo_email
  ∧ (∀ envelope parts timeout_ms curl_response,
     int_of_float (timeout * 1000)%float = Ok timeout_ms →
     setopt_long timeout_ms = Ok timeout_ms →
     curl_perform h (curl_request_of parts timeout_ms)
     = Performed curl_response →
     ((∃ a, (_create_envelope envelope parts self h).1.1
            = Raise (DocuSignException a))
      ↔ (status_code curl_response ≠ 201)%Z)
     ∧ ((status_code curl_response ≠ 201)%Z →
        (_create_envelope envelope parts self h).1.1
        = Raise (DocuSignException (ArgResponse curl_response)))).
Proof.
  intros Ht Hs run. subst run. rewrite _request_run, Ht. simpl. rewrite Hs.
  unfold result_of. split_and!; try done.
  - intros Hne. apply Z.eqb_neq in Hne. by rewrite Hne.
  - intros ->. rewrite Z.eqb_refl. simpl. unfold response_json.
    destruct (String.prefix _ _); simpl; [|done].
    destruct (json_loads _); simpl; [done|]. split; [done|].
    by intros e [= <-].
  - intros envelope parts timeout_ms curl_response Hms Hfit Hc.
    destruct (_create_envelope_status envelope parts self h timeout
                timeout_ms curl_response Ht Hms Hfit Hc) as [Hne Heq].
    split; [split|].
    + intros [a Ha]. intros H201. by apply (Heq H201 a).
    + intros H. rewrite (Hne H). eauto.
    + intros H. by rewrite (Hne H).
Qed.

(** C6, amended. For a response with the expected status code: when the
    [Content-Type] header starts with [application/json], [_request] hands
    over to [response.json()], so it returns the decoded body when the body
    decodes, and raises the decoder's [ValueError] and returns nothing when
    it does not; when the header does not start so, it returns the text of
    the response. These are the only ways in which it returns. *)
Theorem request_result url method headers data file_data expected_status_code
    sobo_email (self : Client) (h : list event) timeout response :
  _timeout self = Some timeout →
  requests_send h (request_of self url method headers data file_data
                     sobo_email timeout) = Responded response →
  resp_status_code response = expected_status_code →
  let run := _request url method headers data file_data expected_status_code
               sobo_email self h in
  let content_type := default "" (resp_headers response !! "Content-Type") in
  (String.prefix "application/json" content_type = true →
   result_of run = response_json response
   ∧ (∀ body, json_loads (resp_text response) = Some body →
              result_of run = Ok body)
   ∧ (json_loads (resp_text response) = None →
      result_of run = Raise (ValueError "No JSON object could be decoded")))
  ∧ (String.prefix "application/json" content_type = false →
     result_of run = Ok (PStr (resp_text response)))
  ∧ (∀ v, result_of run = Ok v
          ↔ (String.prefix "application/json" content_type = true
             ∧ json_loads (resp_text response) = Some v)
            ∨ (String.prefix "application/json" content_type = false
               ∧ v = PStr (resp_text response))).
Proof.
  intros Ht Hs <- run content_type. subst run content_type.
  rewrite _request_run, Ht. simpl. rewrite Hs, Z.eqb_refl. simpl.
  unfold result_of, response_json.
  destruct (String.prefix _ _); simpl.
  - split; [|split; [done|]].
    + intros _. split; [done|]. split; [by intros body ->|by intros ->].
    + intros v. destruct (json_loads _) as [body|]; simpl.
      * split; [intros [= ->]; by left|]. by intros [[_ [= ->]]|[? _]].
      * split; [done|]. by intros [[_ ?]|[? _]].
  - split; [done|]. split; [done|].
    intros v. split; [intros [= <-]; by right|].
    by intros [[? _]|[_ ->]].
Qed.

End request.

(** ** Login *)

Section login.
Context {ext : Externals}.

(** One run of [login_information], in terms of its request. *)
Lemma login_information_run (self : Client) (h : list event) :
  login_information self h
  = match _request "/login_information" GET (Some ∅) None None 200 None
            self (h ++ [EvLogin]) with
    | (Raise e, self1, e1) => (Raise e, self1, EvLogin :: e1)
    | (Ok data, self1, e1) =>
        match getitem_str data "loginAccounts" with
        | Raise e => (Raise e, self1, EvLogin :: e1)
        | Ok accounts =>
            match getitem_int accounts 0 with
            | Raise e => (Raise e, self1, EvLogin :: e1)
            | Ok first =>
                match getitem_str first "accountId" with
                | Raise e => (Raise e, self1, EvLogin :: e1)
                | Ok account =>
                    (Ok data,
                     set_account_url
                       (root_url self1 +:+ "/accounts/" +:+ py_str account)
                       (set_account_id account self1),
                     EvLogin :: e1)
                end
            end
        end
    end.
Proof.
  unfold login_information, get. unfold bind at 1. simpl.
  unfold bind at 1.
  destruct (_request _ _ _ _ _ _ _ self (h ++ [EvLogin]))
    as [[[data|e] self1] e1]; [|by rewrite ?app_nil_r].
  unfold bind, lift, assign, this, ret. simpl.
  destruct (getitem_str data "loginAccounts") as [accounts|]; simpl;
    [|by rewrite ?app_nil_r].
  destruct (getitem_int accounts 0) as [first|]; simpl;
    [|by rewrite ?app_nil_r].
  destruct (getitem_str first "accountId") as [account|]; simpl;
    by rewrite ?app_nil_r.
Qed.

(** C5. A call of [login_information] succeeds exactly when the server
    answers its request with status 200 and a JSON body that decodes to a
    dictionary whose [loginAccounts] is a list starting with a dictionary
    that has an [accountId]. Then [account_id] is that [accountId],
    [account_url] is [root_url], ['/accounts/'] and that [account_id], every
    other attribute of the client is as before, and the decoded dictionary
    is returned. *)
Theorem login_information_spec (self : Client) (h : list event) data self'
    events :
  login_information self h = (Ok data, self', events)
  ↔ ∃ timeout response m accounts first account,
      _timeout self = Some timeout
      ∧ requests_send (h ++ [EvLogin]) (login_request self timeout)
        = Responded response
      ∧ resp_status_code response = 200%Z
      ∧ String.prefix "application/json"
          (default "" (resp_headers response !! "Content-Type")) = true
      ∧ json_loads (resp_text response) = Some data
      ∧ data = PDict m
      ∧ m !! "loginAccounts" = Some (PList (PDict first :: accounts))
      ∧ first !! "accountId" = Some account
      ∧ account_id self' = account
      ∧ account_url self' = root_url self +:+ "/accounts/" +:+ py_str account
      ∧ root_url self' = root_url self
      ∧ username self' = username self
      ∧ password self' = password self
      ∧ integrator_key self' = integrator_key self
      ∧ app_token self' = app_token self
      ∧ oauth2_token self' = oauth2_token self
      ∧ _timeout self' = _timeout self
      ∧ events = [EvLogin; EvHttp (login_request self timeout)].
Proof.
  rewrite login_information_run, _request_run. unfold login_request. split.
  - destruct (_timeout self) as [timeout|] eqn:Ht; [|done]. simpl.
    destruct (requests_send _ _) as [response|] eqn:Hs; [|done].
    destruct (resp_status_code response =? 200)%Z eqn:Hc; [|done]. simpl.
    apply Z.eqb_eq in Hc.
    destruct (String.prefix _ _) eqn:Hp.
    + unfold response_json.
      destruct (json_loads (resp_text response)) as [body|] eqn:Hj; [|done].
      destruct body as [| | | |l|m]; try done. simpl.
      destruct (m !! "loginAccounts") as [accounts|] eqn:Hm; [|done].
      destruct accounts as [| | |s|l|m']; try done; simpl.
      * destruct (str_index s 0); done.
      * unfold list_index. simpl. destruct l as [|first accounts]; [done|].
        simpl. destruct first as [| | | |l'|first]; try done. simpl.
        destruct (first !! "accountId") as [account|] eqn:Hf; [|done].
        intros [= <- <- <-].
        exists timeout, response, m, accounts, first, account.
        done.
    + done.
  - intros (timeout & response & m & accounts & first & account & Ht & Hs
            & Hc & Hp & Hj & -> & Hm & Hf & Hid & Hurl & Hr & Hu & Hpw & Hk
            & Hap & Ho & Hto & ->).
    rewrite Ht. simpl. rewrite Hs, Hc. simpl. rewrite Hp.
    unfold response_json. rewrite Hj. simpl. rewrite Hm. simpl.
    unfold list_index. simpl. rewrite Hf.
    destruct self'. simpl in *. subst. unfold set_account_url, set_account_id.
    simpl. by rewrite Ht.
Qed.

End login.

(** ** OAuth2 *)

Section oauth2.
Context {ext : Externals}.

(** C7, amended. [oauth2_token_request] and [oauth2_token_revoke] raise
    [DocuSignOAuth2Exception], which is not a [DocuSignException], exactly
    when the status code is not 200 and the body decodes as JSON, and the
    exception carries the decoded body; a status code other than 200 with a
    body that does not decode raises the decoder's [ValueError]. Neither
    method ever raises [DocuSignException]. On status 200,
    [oauth2_token_revoke] returns [None] whatever the body is, and
    [oauth2_token_request] returns exactly when the body decodes to a
    dictionary that has an [access_token], which is what it returns;
    otherwise it raises [ValueError] when the body does not decode,
    [TypeError] when it decodes to something else than a dictionary, and
    [KeyError] when the dictionary has no [access_token]. *)
Theorem oauth2_spec (root_url username password integrator_key
    token : string) (h : list event) (granted revoked : http_response) :
  requests_send h
    (oauth2_token_request_sent root_url username password integrator_key)
  = Responded granted →
  requests_send h (oauth2_token_revoke_sent root_url token)
  = Responded revoked →
  let request :=
    (oauth2_token_request root_url username password integrator_key h).1 in
  let revoke := (oauth2_token_revoke root_url token h).1 in
  ((∃ body, request = Raise (DocuSignOAuth2Exception body))
   ↔ resp_status_code granted ≠ 200%Z
     ∧ ∃ body, json_loads (resp_text granted) = Some body)
  ∧ (∀ body, resp_status_code granted ≠ 200%Z →
     json_loads (resp_text granted) = Some body →
     request = Raise (DocuSignOAuth2Exception body))
  ∧ (resp_status_code granted ≠ 200%Z →
     json_loads (resp_text granted) = None →
     request = Raise (ValueError "No JSON object could be decoded"))
  ∧ (∀ m access_token, resp_status_code granted = 200%Z →
     json_loads (resp_text granted) = Some (PDict m) →
     m !! "access_token" = Some access_token →
     request = Ok access_token)
  ∧ (resp_status_code granted = 200%Z →
     (∀ access_token,
        request = Ok access_token
        ↔ ∃ m, json_loads (resp_text granted) = Some (PDict m)
               ∧ m !! "access_token" = Some access_token)
     ∧ (json_loads (resp_text granted) = None →
        request = Raise (ValueError "No JSON object could be decoded"))
     ∧ (∀ body, json_loads (resp_text granted) = Some body →
        (∀ m, body ≠ PDict m) → request = Raise TypeError)
     ∧ (∀ m, json_loads (resp_text granted) = Some (PDict m) →
        m !! "access_token" = None →
        request = Raise (KeyError (PStr "access_token"))))
  ∧ ((∃ body, revoke = Raise (DocuSignOAuth2Exception body))
     ↔ resp_status_code revoked ≠ 200%Z
       ∧ ∃ body, json_loads (resp_text revoked) = Some body)
  ∧ (∀ body, resp_status_code revoked ≠ 200%Z →
     json_loads (resp_text revoked) = Some body →
     revoke = Raise (DocuSignOAuth2Exception body))
  ∧ (resp_status_code revoked ≠ 200%Z →
     json_loads (resp_text revoked) = None →
     revoke = Raise (ValueError "No JSON object could be decoded"))
  ∧ (resp_status_code revoked = 200%Z → revoke = Ok PNone)
  ∧ (∀ a, request ≠ Raise (DocuSignException a))
  ∧ (∀ a, revoke ≠ Raise (DocuSignException a)).
Proof.
  intros Hg Hr request revoke. subst request revoke.
  unfold oauth2_token_request_sent, oauth2_token_revoke_sent in *.
  unfold oauth2_token_request, oauth2_token_revoke, response_json.
  simpl. rewrite Hg, Hr. clear Hg Hr.
  split_and!.
  - destruct (Z.eqb_spec (resp_status_code granted) 200) as [Cg|Cg]; simpl;
      destruct (json_loads (resp_text granted)) as [gb|]; simpl.
    + split; [intros [body H]|by intros [? _]].
      apply getitem_str_Raise in H as [|]; done.
    + split; [by intros [? ?]|by intros [? _]].
    + split; eauto.
    + split; [by intros [? ?]|by intros [_ [? ?]]].
  - intros body Cg ->. apply Z.eqb_neq in Cg. by rewrite Cg.
  - intros Cg ->. apply Z.eqb_neq in Cg. by rewrite Cg.
  - intros m access_token -> -> Hm. simpl. by rewrite Hm.
  - intros ->. simpl.
    destruct (json_loads (resp_text granted)) as [body|]; simpl.
    + split_and!; [|done| |].
      * intros access_token. split.
        -- destruct body; try done. simpl.
           destruct (m !! "access_token") eqn:Hm; [|done].
           intros [= <-]. by exists m.
        -- intros (m & [= ->] & Hm). simpl. by rewrite Hm.
      * intros body' [= <-] Hb. destruct body; try done. by destruct (Hb m).
      * intros m [= ->] Hm. simpl. by rewrite Hm.
    + split_and!; try done. intros access_token. split; [done|].
      by intros (m & ? & _).
  - destruct (Z.eqb_spec (resp_status_code revoked) 200) as [Cr|Cr]; simpl;
      destruct (json_loads (resp_text revoked)) as [rb|]; simpl.
    + split; [by intros [? ?]|by intros [? _]].
    + split; [by intros [? ?]|by intros [? _]].
    + split; eauto.
    + split; [by intros [? ?]|by intros [_ [? ?]]].
  - intros body Cr ->. apply Z.eqb_neq in Cr. by rewrite Cr.
  - intros Cr ->. apply Z.eqb_neq in Cr. by rewrite Cr.
  - by intros ->.
  - intros a. destruct (negb _);
      destruct (json_loads (resp_text granted)) as [body|]; simpl; try done.
    apply getitem_str_no_DocuSignException.
  - intros a. destruct (negb _); [|done].
    by destruct (json_loads (resp_text revoked)).
Qed.

End oauth2.

(** ** Account information *)

Section account.
Context {ext : Externals}.

(** C9. With an [account_id] argument that is not [None],
    [get_account_information] requests ['/accounts/{id}/'] filled with the
    client's own [account_id]: the run is the same for any two such
    arguments. With [None] it requests the cached [account_url]. *)
Theorem get_account_information_url (self : Client) (h : list event)
    (a b : value) :
  get_account_information (Some a) self h
  = get_account_information (Some b) self h
  ∧ get_account_information (Some a) self h
    = get ("/accounts/" +:+ py_str (account_id self) +:+ "/")
        None None None 200 None self h
  ∧ get_account_information None self h
    = get (account_url self) None None None 200 None self h
  ∧ (∀ timeout, _timeout self = Some timeout →
     ∃ rq rest,
       events_of (get_account_information (Some a) self h) = EvHttp rq :: rest
       ∧ rq_method rq = GET
       ∧ rq_url rq
         = root_url self +:+ "/accounts/" +:+ py_str (account_id self) +:+ "/")
  ∧ (∀ timeout, _timeout self = Some timeout →
     ∃ rq rest,
       events_of (get_account_information None self h) = EvHttp rq :: rest
       ∧ rq_method rq = GET
       ∧ rq_url rq = root_url self +:+ account_url self).
Proof.
  assert (∀ o, get_account_information o self h
               = get (match o with
                      | None => account_url self
                      | Some _ => "/accounts/" +:+ py_str (account_id self)
                                  +:+ "/"
                      end) None None None 200 None self h) as Hrun.
  { intros o. unfold get_account_information, bind, this. simpl.
    rewrite app_nil_r. by destruct (get _ _ _ _ _ _ self h) as [[[]]]. }
  split_and!; try (by rewrite !Hrun).
  - intros timeout Ht. rewrite Hrun. unfold get. rewrite _request_run, Ht.
    simpl. destruct (requests_send _ _); [|by eauto].
    destruct (negb _); [by eauto|].
    destruct (String.prefix _ _); by eauto.
  - intros timeout Ht. rewrite Hrun. unfold get. rewrite _request_run, Ht.
    simpl. destruct (requests_send _ _); [|by eauto].
    destruct (negb _); [by eauto|].
    destruct (String.prefix _ _); by eauto.
Qed.

End account.

(** ** Envelope creation *)

Section creation.
Context {ext : Externals}.

(** The request builders leave [envelope.client] and [envelope.envelopeId]
    alone. *)
Lemma request_builders_frame (envelope : Envelope) (self : Client)
    (h : list event) parts envelope1 self1 e1 :
  _create_envelope_from_document_request envelope self h
    = (Ok (parts, envelope1), self1, e1)
  ∨ _create_envelope_from_template_request envelope self h
    = (Ok (parts, envelope1), self1, e1) →
  env_client envelope1 = env_client envelope
  ∧ env_envelopeId envelope1 = env_envelopeId envelope.
Proof.
  unfold _create_envelope_from_document_request,
    _create_envelope_from_template_request.
  unfold bind at 1 3.
  destruct (login_if_no_account_url self h) as [[[[]|e] self0] e0];
    [|by intros [|]].
  unfold bind, this, ret. simpl. by intros [[= <- <- <- <-]|[= <- <- <- <-]].
Qed.

(** C10, amended. On a 201 response whose body decodes to a dictionary
    with an [envelopeId], [_create_envelope] returns that [envelopeId],
    sets [envelope.client] to the client only when it was unset, sets
    [envelope.envelopeId] to the returned one only when it was falsy, and
    changes nothing else of the envelope; [create_envelope_from_document]
    and [create_envelope_from_template] do the same to the envelope their
    request builder hands over. On a 201 response whose body decodes to
    something the [envelopeId] cannot be read from, the method raises
    [KeyError] or [TypeError] and returns nothing, after it has set
    [envelope.client] when that was unset; on a 201 response whose body
    does not decode it raises [ValueError] and leaves the envelope as it
    was. Whenever the method returns, what it returns is the [envelopeId]
    of the decoded body. *)
Theorem create_envelope_effects (envelope : Envelope) (parts : Parts)
    (self : Client) (h : list event) timeout timeout_ms response :
  _timeout self = Some timeout →
  int_of_float (timeout * 1000)%float = Ok timeout_ms →
  setopt_long timeout_ms = Ok timeout_ms →
  curl_perform h (curl_request_of parts timeout_ms) = Performed response →
  status_code response = 201%Z →
  (∀ response_data envelopeId,
     json_loads (text response) = Some response_data →
     getitem_str response_data "envelopeId" = Ok envelopeId →
     _create_envelope envelope parts self h
     = (Ok envelopeId, envelope_created self envelopeId envelope,
        [EvCurl (curl_request_of parts timeout_ms)])
     ∧ (∀ envelope0 self0 h0 e1,
        h = h0 ++ e1 →
        _create_envelope_from_document_request envelope0 self0 h0
        = (Ok (parts, envelope), self, e1) →
        create_envelope_from_document envelope0 self0 h0
        = (Ok envelopeId, envelope_created self envelopeId envelope, self,
           e1 ++ [EvCurl (curl_request_of parts timeout_ms)])
        ∧ env_client envelope = env_client envelope0
        ∧ env_envelopeId envelope = env_envelopeId envelope0)
     ∧ (∀ envelope0 self0 h0 e1,
        h = h0 ++ e1 →
        _create_envelope_from_template_request envelope0 self0 h0
        = (Ok (parts, envelope), self, e1) →
        create_envelope_from_template envelope0 self0 h0
        = (Ok envelopeId, envelope_created self envelopeId envelope, self,
           e1 ++ [EvCurl (curl_request_of parts timeout_ms)])
        ∧ env_client envelope = env_client envelope0
        ∧ env_envelopeId envelope = env_envelopeId envelope0))
  ∧ (∀ response_data e,
     json_loads (text response) = Some response_data →
     getitem_str response_data "envelopeId" = Raise e →
     _create_envelope envelope parts self h
     = (Raise e, envelope_adopted self envelope,
        [EvCurl (curl_request_of parts timeout_ms)])
     ∧ (e = KeyError (PStr "envelopeId") ∨ e = TypeError))
  ∧ (json_loads (text response) = None →
     _create_envelope envelope parts self h
     = (Raise (ValueError "No JSON object could be decoded"), envelope,
        [EvCurl (curl_request_of parts timeout_ms)]))
  ∧ (∀ envelopeId envelope' events,
     _create_envelope envelope parts self h
     = (Ok envelopeId, envelope', events) →
     ∃ response_data,
       json_loads (text response) = Some response_data
       ∧ getitem_str response_data "envelopeId" = Ok envelopeId
       ∧ envelope' = envelope_created self envelopeId envelope).
Proof.
  intros Ht Hms Hfit Hc H201.
  assert (_create_envelope envelope parts self h
          = match json_loads (text response) with
            | None =>
                (Raise (ValueError "No JSON object could be decoded"),
                 envelope, [EvCurl (curl_request_of parts timeout_ms)])
            | Some response_data =>
                match getitem_str response_data "envelopeId" with
                | Ok envelopeId =>
                    (Ok envelopeId, envelope_created self envelopeId envelope,
                     [EvCurl (curl_request_of parts timeout_ms)])
                | Raise e =>
                    (Raise e, envelope_adopted self envelope,
                     [EvCurl (curl_request_of parts timeout_ms)])
                end
            end) as Hrun.
  { unfold _create_envelope, get_timeout, curl_request_of in *.
    rewrite Ht, Hms, Hfit, Hc, H201. simpl.
    destruct (json_loads (text response)) as [response_data|]; [|done].
    unfold envelope_created, envelope_adopted, set_env_envelopeId,
      set_env_client.
    destruct (getitem_str response_data "envelopeId") as [envelopeId|e];
      destruct envelope as [d docs sobo [client|] eid]; simpl;
      by destruct (truthy eid). }
  rewrite Hrun. split_and!.
  - intros response_data envelopeId Hj Hid. rewrite Hj, Hid.
    split_and!; [done| |].
    + intros envelope0 self0 h0 e1 -> Hb. split.
      * unfold create_envelope_from_document, create_envelope_with.
        by rewrite Hb, Hrun, Hj, Hid.
      * eapply request_builders_frame; eauto.
    + intros envelope0 self0 h0 e1 -> Hb. split.
      * unfold create_envelope_from_template, create_envelope_with.
        by rewrite Hb, Hrun, Hj, Hid.
      * eapply request_builders_frame; eauto.
  - intros response_data e Hj Hid. rewrite Hj, Hid. split; [done|].
    by apply getitem_str_Raise in Hid.
  - by intros ->.
  - intros envelopeId envelope' events.
    destruct (json_loads (text response)) as [response_data|]; [|done].
    destruct (getitem_str response_data "envelopeId") as [envelopeId'|e]
      eqn:Hid; [|done].
    intros [= <- <- <-]. by exists response_data.
Qed.

End creation.

(** ** Lazy login *)

Section lazy_login.
Context {ext : Externals}.

Lemma bind_events {A B} (m : M A) (k : A → M B) (self : Client)
    (h : list event) :
  ∃ rest, events_of (bind m k self h) = events_of (m self h) ++ rest.
Proof.
  unfold bind, events_of. destruct (m self h) as [[[a|e] self1] e1]; simpl.
  - destruct (k a self1 (h ++ e1)) as [[r self2] e2]. by exists e2.
  - exists []. by rewrite app_nil_r.
Qed.

Lemma login_free_ret {A} (a : A) : login_free (ret a).
Proof. intros self h. apply not_elem_of_nil. Qed.

Lemma login_free_raise {A} (e : exn) : login_free (raise (A := A) e).
Proof. intros self h. apply not_elem_of_nil. Qed.

Lemma login_free_lift {A} (o : outcome A) : login_free (lift o).
Proof. intros self h. apply not_elem_of_nil. Qed.

Lemma login_free_this : login_free this.
Proof. intros self h. apply not_elem_of_nil. Qed.

Lemma login_free_bind {A B} (m : M A) (k : A → M B) :
  login_free m → (∀ a, login_free (k a)) → login_free (bind m k).
Proof.
  intros Hm Hk self h. specialize (Hm self h). unfold bind, events_of in *.
  destruct (m self h) as [[[a|e] self1] e1]; simpl in *; [|done].
  specialize (Hk a self1 (h ++ e1)). unfold events_of in Hk.
  destruct (k a self1 (h ++ e1)) as [[r self2] e2]. simpl in *.
  rewrite elem_of_app. tauto.
Qed.

Lemma login_free_request url method headers data file_data
    expected_status_code sobo_email :
  login_free (_request url method headers data file_data expected_status_code
                sobo_email).
Proof.
  intros self h. rewrite _request_run. unfold events_of.
  destruct (_timeout self); simpl; [|apply not_elem_of_nil].
  destruct (requests_send _ _); simpl.
  - destruct (negb _); simpl.
    + rewrite !elem_of_cons, elem_of_nil. by intros [|[|]].
    + destruct (String.prefix _ _); simpl;
        rewrite !elem_of_cons, elem_of_nil; by intros [|].
  - rewrite !elem_of_cons, elem_of_nil. by intros [|[|]].
Qed.

Lemma login_free_stream url headers :
  login_free (requests_get_stream url headers).
Proof.
  intros self h. unfold requests_get_stream, bind, requests_call, events_of.
  simpl. destruct (requests_send _ _); simpl;
    rewrite !elem_of_cons, elem_of_nil; by intros [|].
Qed.

(** With [account_url] set, the guard does nothing. *)
Lemma guard_set (self : Client) (h : list event) :
  account_url self ≠ "" → login_if_no_account_url self h = (Ok tt, self, []).
Proof.
  intros Hne. unfold login_if_no_account_url, bind, this. simpl.
  by destruct (account_url self).
Qed.

(** With [account_url] empty, the guard enters [login_information] before
    anything else. *)
Lemma guard_unset (self : Client) (h : list event) :
  account_url self = "" →
  ∃ rest, events_of (login_if_no_account_url self h) = EvLogin :: rest.
Proof.
  intros He. unfold login_if_no_account_url. unfold bind at 1, this. simpl.
  rewrite He. simpl.
  destruct (bind_events login_information (λ _, ret tt) self (h ++ []))
    as [rest Hrest].
  unfold events_of in *.
  destruct (bind login_information _ self (h ++ [])) as [[r self1] e1].
  simpl in *. subst e1. rewrite login_information_run.
  destruct (_request _ _ _ _ _ _ _ _ _) as [[[data|e] self2] e2]; simpl;
    [|by eauto].
  destruct (getitem_str data "loginAccounts") as [accounts|]; [|by eauto].
  destruct (getitem_int accounts 0) as [first|]; [|by eauto].
  destruct (getitem_str first "accountId"); by eauto.
Qed.

(** A method that starts with the guard and never logs in afterwards logs
    in first exactly when [account_url] is empty. *)
Lemma guarded_method {A} (body : M A) (self : Client) (h : list event) :
  login_free body →
  let events :=
    events_of (void (_ <~ login_if_no_account_url ;; body) self h) in
  ((∃ rest, events = EvLogin :: rest) ↔ account_url self = "")
  ∧ (account_url self ≠ "" → EvLogin ∉ events).
Proof.
  intros Hbody events.
  assert (account_url self ≠ "" → EvLogin ∉ events) as Hset.
  { intros Hne. subst events. unfold void, bind, events_of.
    rewrite (guard_set self h Hne). simpl.
    specialize (Hbody self (h ++ [])). unfold events_of in Hbody.
    destruct (body self (h ++ [])) as [[[a|e] self1] e1]; simpl in *;
      by rewrite ?app_nil_r. }
  split; [split|done].
  - intros [rest Hrest].
    destruct (decide (account_url self = "")) as [|Hne]; [done|].
    apply Hset in Hne. rewrite Hrest in Hne.
    exfalso. apply Hne. by left.
  - intros He. subst events. unfold void.
    destruct (bind_events (_ <~ login_if_no_account_url ;; body)
                (λ _, ret tt) self h) as [rest1 ->].
    destruct (bind_events login_if_no_account_url (λ _, body) self h)
      as [rest2 ->].
    destruct (guard_unset self h He) as [rest3 ->]. simpl. eauto.
Qed.



End lazy_login.

(** ** The multipart body *)

Lemma append_cons (x : ascii) (a b : string) :
  String x a +:+ b = String x (a +:+ b).
Proof. reflexivity. Qed.

Lemma append_assoc (a b c : string) : (a +:+ b) +:+ c = a +:+ (b +:+ c).
Proof.
  induction a as [|x a IH]; [done|]. rewrite !append_cons. by f_equal.
Qed.

Lemma append_empty_r (a : string) : a +:+ "" = a.
Proof. induction a as [|x a IH]; [done|]. rewrite append_cons. by f_equal. Qed.

Section multipart.
Context {ext : Externals}.

Lemma docs_body_from (documents : list Document) (acc : string) :
  foldl (λ docs_body document, docs_body +:+ document_part document) acc
    documents
  = acc +:+ docs_body documents.
Proof.
  unfold docs_body. revert acc.
  induction documents as [|d ds IH]; intros acc; simpl.
  - by rewrite append_empty_r.
  - change ("" +:+ document_part d) with (document_part d).
    rewrite (IH (acc +:+ document_part d)), (IH (document_part d)).
    apply append_assoc.
Qed.

(** One part per document, each opened by its own delimiter line. *)
Lemma docs_body_cons (d : Document) (ds : list Document) :
  docs_body (d :: ds) = document_part d +:+ docs_body ds.
Proof. unfold docs_body at 1. simpl. apply docs_body_from. Qed.

(** After [seek(0)], [read()] yields the whole file, wherever its position
    was: that is what a document's part holds. *)
Lemma file_read_from_start (content : string) (pos : nat) :
  (file_read (file_seek 0 (mkFile content pos))).1 = content.
Proof.
  unfold file_read, file_seek. simpl. rewrite Nat.sub_0_r.
  induction content as [|c content IH]; simpl; [done|]. by rewrite IH.
Qed.

(** What [_create_envelope_from_document_request] returns once the account
    is known: the body is the template filled in, [Content-Type] declares
    the boundary and [Content-Length] is the length of the body. *)
Lemma document_request_parts (envelope : Envelope) (self : Client)
    (h : list event) :
  account_url self ≠ "" →
  ∃ parts envelope',
    _create_envelope_from_document_request envelope self h
    = (Ok (parts, envelope'), self, [])
    ∧ parts_url parts = account_url self +:+ "/envelopes"
    ∧ parts_body parts
      = document_request_body (env_to_dict envelope) (env_documents envelope)
    ∧ parts_headers parts !! "Content-Type"
      = Some (PStr "multipart/form-data; boundary=myboundary")
    ∧ parts_headers parts !! "Content-Length"
      = Some (PInt (Z.of_nat (String.length (parts_body parts)))).
Proof.
  intros Hne. unfold _create_envelope_from_document_request.
  unfold bind at 1. rewrite (guard_set self h Hne).
  unfold bind, this, ret. simpl. do 2 eexists. split; [done|]. simpl.
  split_and!; try done.
  - by rewrite lookup_insert_ne, lookup_insert_eq.
  - by rewrite lookup_insert_eq.
Qed.

(** In every body the delimiter line that closes the JSON part is followed
    at once by a second delimiter line: the one that opens the first
    document, or the closing one when there is no document. *)
Lemma document_request_body_delimiters (data : value)
    (documents : list Document) :
  ∃ after,
    document_request_body data documents
    = CRLF +:+ CRLF
      +:+ "--myboundary" +:+ CRLF
      +:+ "Content-Type: application/json; charset=UTF-8" +:+ CRLF
      +:+ "Content-Disposition: form-data" +:+ CRLF
      +:+ CRLF
      +:+ json_dumps data +:+ CRLF
      +:+ "--myboundary" +:+ CRLF
      +:+ "--myboundary" +:+ after.
Proof.
  unfold document_request_body. destruct documents as [|d ds].
  - exists ("--" +:+ CRLF +:+ CRLF). done.
  - rewrite docs_body_cons. unfold document_part.
    eexists. rewrite !append_assoc. reflexivity.
Qed.

End multipart.

(** C3. In every body that [_create_envelope_from_document_request]
    builds, the delimiter line after the JSON part is followed at once by a
    second delimiter line. On an envelope with one document the body
    therefore splits at its delimiter lines into three parts, not two: the
    JSON part, an empty part, and the part of the document, which holds the
    whole file although its position was 5. The body of
    [_create_envelope_from_template_request] frames its JSON part alone. The
    headers declare the boundary and the length of the body. *)
Theorem document_request_extra_part :
  (∀ (ext : Externals) data documents,
     ∃ after,
       document_request_body data documents
       = CRLF +:+ CRLF
         +:+ "--myboundary" +:+ CRLF
         +:+ "Content-Type: application/json; charset=UTF-8" +:+ CRLF
         +:+ "Content-Disposition: form-data" +:+ CRLF
         +:+ CRLF
         +:+ json_dumps data +:+ CRLF
         +:+ "--myboundary" +:+ CRLF
         +:+ "--myboundary" +:+ after)
  ∧ let ext := sample_externals [] no_server no_curl in
    ∃ parts envelope',
      _create_envelope_from_document_request sample_envelope
        sample_oauth_client []
      = (Ok (parts, envelope'), sample_oauth_client, [])
      ∧ multipart_parts "myboundary" (parts_body parts)
        = [ [ "Content-Type: application/json; charset=UTF-8";
              "Content-Disposition: form-data"; ""; "{}" ];
            [];
            [ "Content-Type:application/pdf";
              "Content-Disposition: file; filename=" +:+ quoted "contract.pdf"
              +:+ "; documentId=1 ";
              ""; "%PDF-1.4 sample"; "" ] ]
      ∧ multipart_parts "myboundary" (template_request_body (PDict ∅))
        = [ [ "Content-Type: application/json; charset=UTF-8";
              "Content-Disposition: form-data"; ""; "{}" ] ]
      ∧ parts_headers parts !! "Content-Type"
        = Some (PStr "multipart/form-data; boundary=myboundary")
      ∧ parts_headers parts !! "Content-Length"
        = Some (PInt (Z.of_nat (String.length (parts_body parts)))).
Proof.
  split; [intros ext; apply document_request_body_delimiters|].
  intros ext.
  destruct (document_request_parts sample_envelope sample_oauth_client [])
    as (parts & envelope' & Hrun & _ & Hbody & Htype & Hlength); [done|].
  exists parts, envelope'. split_and!; try done.
  rewrite Hbody. by vm_compute.
Qed.

(** * The properties on concrete runs *)

(** C1, as stated, fails on a 200 response that is declared as JSON and
    does not decode: the status code is the expected one and an exception
    is raised all the same. And on a 404 the [DocuSignException] is built
    from a message, not from the response. *)
Lemma request_success_can_raise :
  let ext := sample_externals [] (always undecodable_200) no_curl in
  let ext' := sample_externals [] (always not_found_404) no_curl in
  resp_status_code undecodable_200 = 200%Z
  ∧ result_of (_request (ext := ext) "/accounts/42/" GET None None None 200
                 None sample_oauth_client [])
    = Raise (ValueError "No JSON object could be decoded")
  ∧ result_of (_request (ext := ext') "/accounts/42/" GET None None None 200
                 None sample_oauth_client [])
    = Raise (DocuSignException (ArgMsg
        ("DocuSign request failed: GET "
         +:+ "https://demo.docusign.net/restapi/v2/accounts/42/ "
         +:+ "returned code 404 while expecting code 200; "
         +:+ "Message: Not Found ; "))).
Proof. by vm_compute. Qed.

Lemma status_check_witness :
  let ext := sample_externals [] (always not_found_404) no_curl in
  result_of (_request "/accounts/42/" GET None None None 200 None
               sample_oauth_client [])
  = Raise (DocuSignException (ArgMsg
      (request_failed_msg GET
         "https://demo.docusign.net/restapi/v2/accounts/42/" 200
         not_found_404))).
Proof.
  intros ext.
  apply (status_check (ext := ext) "/accounts/42/" GET None None None 200 None
           sample_oauth_client [] 30%float not_found_404 eq_refl eq_refl).
  done.
Defined.

(** C6, as stated, fails on a 200 response that is declared as JSON and
    whose body does not decode: the status code is the expected one, the
    [Content-Type] starts with [application/json], and [_request] returns
    nothing, neither a decoded body nor the text. *)
Lemma request_declared_json_not_returned :
  let ext := sample_externals [] (always undecodable_200) no_curl in
  let run := _request "/accounts/42/" GET None None None 200 None
               sample_oauth_client [] in
  resp_status_code undecodable_200 = 200%Z
  ∧ String.prefix "application/json"
      (default "" (resp_headers undecodable_200 !! "Content-Type")) = true
  ∧ result_of run = Raise (ValueError "No JSON object could be decoded")
  ∧ ∀ body, result_of run ≠ Ok body.
Proof. by vm_compute. Qed.

Lemma request_result_witness :
  let ext := sample_externals sample_bodies (always empty_object_200) no_curl in
  let ext' := sample_externals sample_bodies (always plain_200) no_curl in
  result_of (_request (ext := ext) "/accounts/42/" GET None None None 200 None
               sample_oauth_client []) = Ok (PDict ∅)
  ∧ result_of (_request (ext := ext') "/accounts/42/" GET None None None 200
                 None sample_oauth_client []) = Ok (PStr "pong").
Proof.
  intros ext ext'. split.
  - destruct (request_result (ext := ext) "/accounts/42/" GET None None None
                200 None sample_oauth_client [] 30%float empty_object_200
                eq_refl eq_refl eq_refl) as (Hjson & _ & _).
    destruct (Hjson eq_refl) as (_ & Hbody & _). by apply Hbody.
  - destruct (request_result (ext := ext') "/accounts/42/" GET None None None
                200 None sample_oauth_client [] 30%float plain_200
                eq_refl eq_refl eq_refl) as (_ & Htext & _).
    by apply Htext.
Defined.

Lemma login_information_witness :
  let ext := sample_externals sample_bodies (always login_200) no_curl in
  login_information fresh_client []
  = (Ok login_data,
     mkClient "https://demo.docusign.net/restapi/v2" "" "" "" (PStr "42") ""
       "token" "https://demo.docusign.net/restapi/v2/accounts/42"
       (Some 30%float),
     [EvLogin; EvHttp (login_request fresh_client 30)]).
Proof.
  intros ext.
  apply (login_information_spec (ext := ext)).
  exists 30%float, login_200, {[ "loginAccounts" :=
    PList [PDict {[ "accountId" := PStr "42" ]}] ]}, [],
    {[ "accountId" := PStr "42" ]}, (PStr "42").
  by vm_compute.
Defined.

(** C7, as stated, fails on a 502 whose body is not JSON: the status code
    is not 200 and the exception raised is the decoder's [ValueError], not
    [DocuSignOAuth2Exception]; the same holds for the revocation. *)
Lemma oauth2_error_page_raises_ValueError :
  let ext := sample_externals sample_bodies (always bad_gateway_502) no_curl in
  resp_status_code bad_gateway_502 ≠ 200%Z
  ∧ (oauth2_token_request "https://demo.docusign.net/restapi/v2" "user"
       "secret" "key" []).1
    = Raise (ValueError "No JSON object could be decoded")
  ∧ (oauth2_token_revoke "https://demo.docusign.net/restapi/v2" "abc" []).1
    = Raise (ValueError "No JSON object could be decoded").
Proof. by vm_compute. Qed.

Lemma oauth2_spec_witness :
  let ext := sample_externals sample_bodies (always invalid_grant_400) no_curl in
  (oauth2_token_request "https://demo.docusign.net/restapi/v2" "user"
     "secret" "key" []).1
  = Raise (DocuSignOAuth2Exception (PDict {[ "error" := PStr "invalid_grant" ]}))
  ∧ (oauth2_token_revoke "https://demo.docusign.net/restapi/v2" "abc" []).1
    = Raise (DocuSignOAuth2Exception
               (PDict {[ "error" := PStr "invalid_grant" ]})).
Proof.
  intros ext.
  destruct (oauth2_spec (ext := ext) "https://demo.docusign.net/restapi/v2"
              "user" "secret" "key" "abc" [] invalid_grant_400
              invalid_grant_400 eq_refl eq_refl)
    as (_ & Hrequest & _ & _ & _ & _ & Hrevoke & _).
  split; [apply Hrequest|apply Hrevoke]; done.
Defined.

Lemma oauth2_granted_witness :
  let ext := sample_externals sample_bodies (always token_200) no_curl in
  (oauth2_token_request "https://demo.docusign.net/restapi/v2" "user"
     "secret" "key" []).1 = Ok (PStr "abc")
  ∧ (oauth2_token_revoke "https://demo.docusign.net/restapi/v2" "abc" []).1
    = Ok PNone.
Proof. by vm_compute. Qed.

Lemma create_envelope_effects_witness :
  let ext := sample_externals sample_bodies no_server
               (always_curl (mkResponse 201 created_text)) in
  _create_envelope sample_envelope sample_parts sample_oauth_client []
  = (Ok (PStr "e-1"),
     mkEnvelope (PDict ∅) [sample_document] None (Some sample_oauth_client)
       (PStr "e-1"),
     [EvCurl (curl_request_of sample_parts 30000)])
  ∧ _create_envelope identified_envelope sample_parts sample_oauth_client []
    = (Ok (PStr "e-1"), identified_envelope,
       [EvCurl (curl_request_of sample_parts 30000)]).
Proof.
  intros ext. split.
  - destruct (create_envelope_effects (ext := ext) sample_envelope
                sample_parts sample_oauth_client [] 30%float 30000
                (mkResponse 201 created_text)
                eq_refl eq_refl eq_refl eq_refl eq_refl) as (Hcreated & _).
    by destruct (Hcreated created_data (PStr "e-1") eq_refl eq_refl)
      as (-> & _).
  - destruct (create_envelope_effects (ext := ext) identified_envelope
                sample_parts sample_oauth_client [] 30%float 30000
                (mkResponse 201 created_text)
                eq_refl eq_refl eq_refl eq_refl eq_refl) as (Hcreated & _).
    by destruct (Hcreated created_data (PStr "e-1") eq_refl eq_refl)
      as (-> & _).
Defined.

(** C10, as stated, fails on a 201 response whose body is the empty JSON
    object: the method raises [KeyError] and returns nothing, and
    [envelope.client] has been set all the same. *)
Lemma create_envelope_201_can_raise :
  let ext := sample_externals sample_bodies no_server
               (always_curl created_without_id) in
  status_code created_without_id = 201%Z
  ∧ env_client sample_envelope = None
  ∧ _create_envelope sample_envelope sample_parts sample_oauth_client []
    = (Raise (KeyError (PStr "envelopeId")),
       mkEnvelope (PDict ∅) [sample_document] None (Some sample_oauth_client)
         (PStr ""),
       [EvCurl (curl_request_of sample_parts 30000)])
  ∧ (create_envelope_from_document sample_envelope sample_oauth_client []).1.1.1
    = Raise (KeyError (PStr "envelopeId")).
Proof. by vm_compute. Qed.

(** [get_account_information] asked about account 999 by a client whose
    own account is 42 requests account 42. *)
Lemma get_account_information_witness :
  let ext := sample_externals sample_bodies (always empty_object_200) no_curl in
  ∃ rq rest,
    events_of (get_account_information (Some (PStr "999")) sample_oauth_client
                 []) = EvHttp rq :: rest
    ∧ rq_method rq = GET
    ∧ rq_url rq = "https://demo.docusign.net/restapi/v2/accounts/42/".
Proof.
  intros ext.
  destruct (get_account_information_url (ext := ext) sample_oauth_client []
              (PStr "999") (PStr "999")) as (_ & _ & _ & H & _).
  apply (H 30%float eq_refl).
Defined.

(** * Further properties of the client *)

(** ** One call of [_request] *)

Section request_more.
Context {ext : Externals}.

(** X1. When [requests] raises instead of answering, [_request] raises
    [DocuSignException] with a message that names the method, the URL and
    the error, logs that message, has sent the one request, and leaves the
    client as it was. *)
Theorem request_connection_error url method headers data file_data
    expected_status_code sobo_email (self : Client) (h : list event) timeout
    exception :
  _timeout self = Some timeout →
  requests_send h (request_of self url method headers data file_data
                     sobo_email timeout) = Failed exception →
  let msg := "DocuSign request error: " +:+ verb_name method +:+ " "
             +:+ root_url self +:+ url +:+ " failed ; Error: " +:+ exception in
  _request url method headers data file_data expected_status_code sobo_email
    self h
  = (Raise (DocuSignException (ArgMsg msg)), self,
     [EvHttp (request_of self url method headers data file_data sobo_email
                timeout);
      EvLogError msg]).
Proof.
  intros Ht Hs msg. subst msg. rewrite _request_run, Ht. simpl. rewrite Hs.
  unfold request_error_msg. by rewrite !append_assoc.
Qed.

(** X2. In the request that [_request] sends, a header passed by the caller
    replaces the base header of the same name, and every other base header
    is sent as [base_headers] built it. *)
Theorem request_headers_precedence url method (headers : gmap string value)
    data file_data expected_status_code sobo_email (self : Client)
    (h : list event) timeout :
  _timeout self = Some timeout →
  ∃ rq rest,
    events_of (_request url method (Some headers) data file_data
                 expected_status_code sobo_email self h) = EvHttp rq :: rest
    ∧ (∀ k v, headers !! k = Some v → rq_headers rq !! k = Some v)
    ∧ (∀ k, headers !! k = None →
       rq_headers rq !! k = base_headers self sobo_email !! k)
    ∧ rq_headers rq !! "Accept"
      = Some (default (PStr "application/json") (headers !! "Accept")).
Proof.
  intros Ht. rewrite _request_run, Ht. simpl.
  exists (request_of self url method (Some headers) data file_data sobo_email
            timeout).
  assert (∀ k v, headers !! k = Some v →
            (headers ∪ base_headers self sobo_email) !! k = Some v) as Hl.
  { intros k v Hk. by apply lookup_union_Some_l. }
  assert (∀ k, headers !! k = None →
            (headers ∪ base_headers self sobo_email) !! k
            = base_headers self sobo_email !! k) as Hr.
  { intros k Hk. by apply lookup_union_r. }
  assert (rq_headers (request_of self url method (Some headers) data file_data
                        sobo_email timeout) !! "Accept"
          = Some (default (PStr "application/json") (headers !! "Accept")))
    as Ha.
  { unfold request_of. simpl.
    destruct (headers !! "Accept") as [v|] eqn:Hk; simpl.
    - by apply Hl.
    - rewrite (Hr _ Hk). unfold base_headers.
      destruct (str_truthy (oauth2_token self));
        destruct sobo_email as [[|]|]; done. }
  destruct (requests_send _ _); simpl.
  - destruct (negb _); simpl; [by eauto 10|].
    destruct (String.prefix _ _); simpl; by eauto 10.
  - by eauto 10.
Qed.

(** X3. [_request] logs exactly the messages of the [DocuSignException]s it
    raises, never changes the client, never uses [pycurl], never logs in,
    and calls [requests] at most once: there is no retry. *)
Theorem request_effects url method headers data file_data
    expected_status_code sobo_email (self : Client) (h : list event) :
  let run := _request url method headers data file_data expected_status_code
               sobo_email self h in
  (∀ msg, result_of run = Raise (DocuSignException (ArgMsg msg))
          ↔ EvLogError msg ∈ events_of run)
  ∧ (∀ r, result_of run ≠ Raise (DocuSignException (ArgResponse r)))
  ∧ client_of run = self
  ∧ (events_of run = []
     ∨ ∃ rq, events_of run = [EvHttp rq]
             ∨ ∃ msg, events_of run = [EvHttp rq; EvLogError msg]).
Proof.
  intros run. subst run. rewrite _request_run.
  destruct (_timeout self) as [timeout|]; simpl.
  2: { split_and!; try done; [|by left]. intros msg.
       rewrite elem_of_nil. by split. }
  destruct (requests_send _ _) as [response|exception]; simpl.
  - destruct (negb _); simpl.
    + split_and!; try done; [|by eauto 10].
      intros msg. rewrite !elem_of_cons, elem_of_nil. split.
      * intros [= <-]. by right; left.
      * intros [|[[= <-]|]]; done.
    + unfold response_json.
      destruct (String.prefix _ _); simpl;
        [destruct (json_loads _); simpl|];
        (split_and!; try done; [|by eauto 10]);
        intros msg; rewrite !elem_of_cons, elem_of_nil;
        (split; [done|by intros [|]]).
  - split_and!; try done; [|by eauto 10].
    intros msg. rewrite !elem_of_cons, elem_of_nil. split.
    + intros [= <-]. by right; left.
    + intros [|[[= <-]|]]; done.
Qed.

End request_more.

(** ** The timeout attribute *)

Section timeout_more.
Context {ext : Externals}.

(** X4. A successful [set_timeout] changes the timeout and nothing else,
    and [get_timeout] then returns what was stored. After [del_timeout],
    reading the timeout raises [AttributeError], deleting it again raises
    [AttributeError], every [_request] raises [AttributeError] before
    anything is sent, and setting the same value again restores the
    client. *)
Theorem timeout_lifecycle (value : number) (self self' : Client) :
  set_timeout value self = Ok self' →
  (∃ t, _timeout self' = Some t ∧ get_timeout self' = Ok t)
  ∧ root_url self' = root_url self
  ∧ username self' = username self
  ∧ password self' = password self
  ∧ integrator_key self' = integrator_key self
  ∧ account_id self' = account_id self
  ∧ app_token self' = app_token self
  ∧ oauth2_token self' = oauth2_token self
  ∧ account_url self' = account_url self
  ∧ ∃ deleted,
      del_timeout self' = Ok deleted
      ∧ get_timeout deleted = Raise AttributeError
      ∧ del_timeout deleted = Raise AttributeError
      ∧ (∀ url method headers data file_data expected_status_code sobo_email
           h,
         _request url method headers data file_data expected_status_code
           sobo_email deleted h = (Raise AttributeError, deleted, []))
      ∧ set_timeout value deleted = Ok self'.
Proof.
  unfold set_timeout. destruct (lower_than_ms value); [done|].
  destruct (truncate_ms value) as [t|]; [|done]. intros [= <-].
  split; [by exists t|]. do 8 (split; [done|]).
  exists (set__timeout None self). do 3 (split; [done|]).
  unfold set_timeout. split; [|done].
  intros. by rewrite _request_run.
Qed.

End timeout_more.

(** ** Failing logins *)

Section login_more.
Context {ext : Externals}.

(** What a successful login does to the client. *)
Lemma login_information_ok (self : Client) (h : list event) data self'
    events :
  login_information self h = (Ok data, self', events) →
  ∃ account,
    self' = set_account_url (root_url self +:+ "/accounts/" +:+ py_str account)
              (set_account_id account self).
Proof.
  rewrite login_information_run.
  pose proof (_request_client "/login_information" GET (Some ∅) None None 200
                None self (h ++ [EvLogin])) as Hc.
  destruct (_request _ _ _ _ _ _ _ _ _) as [[[d|e] self1] e1]; [|done].
  unfold client_of in Hc. simpl in Hc. subst self1.
  destruct (getitem_str d "loginAccounts") as [accounts|]; [|done].
  destruct (getitem_int accounts 0) as [first|]; [|done].
  destruct (getitem_str first "accountId") as [account|]; [|done].
  intros [= <- <- <-]. by exists account.
Qed.

(** A failing login leaves the client alone. *)
Lemma login_information_raise (self : Client) (h : list event) e self'
    events :
  login_information self h = (Raise e, self', events) → self' = self.
Proof.
  rewrite login_information_run.
  pose proof (_request_client "/login_information" GET (Some ∅) None None 200
                None self (h ++ [EvLogin])) as Hc.
  destruct (_request _ _ _ _ _ _ _ _ _) as [[[d|e0] self1] e1];
    unfold client_of in Hc; simpl in Hc; subst self1; [|by intros [= _ <- _]].
  destruct (getitem_str d "loginAccounts") as [accounts|];
    [|by intros [= _ <- _]].
  destruct (getitem_int accounts 0) as [first|]; [|by intros [= _ <- _]].
  destruct (getitem_str first "accountId") as [account|];
    [done|by intros [= _ <- _]].
Qed.

(** X5. [login_information] updates the client all or nothing: a call that
    raises, for whatever reason, leaves [account_id], [account_url] and
    every other attribute as they were, and a call that returns has set
    [account_url] to a non-empty string. *)
Theorem login_information_all_or_nothing (self : Client) (h : list event) :
  let run := login_information self h in
  (∀ e, result_of run = Raise e → client_of run = self)
  ∧ (∀ data, result_of run = Ok data → account_url (client_of run) ≠ "").
Proof.
  intros run. subst run.
  destruct (login_information self h) as [[[data|e] self'] events] eqn:Hrun;
    unfold result_of, client_of; simpl; split; try done.
  - intros d _.
    apply login_information_ok in Hrun as [account ->]. simpl.
    by destruct (root_url self).
  - intros e0 _. by apply login_information_raise in Hrun.
Qed.

(** X6. When the server answers the login with status 200 and a JSON
    dictionary, the call raises [KeyError] for a dictionary without
    [loginAccounts], [IndexError] for an empty [loginAccounts] list,
    [TypeError] when the first account is not a dictionary and [KeyError]
    when it has no [accountId]; a 200 answer that is not declared as JSON
    raises [TypeError]. *)
Theorem login_information_errors (self : Client) (h : list event) timeout
    response :
  _timeout self = Some timeout →
  requests_send (h ++ [EvLogin]) (login_request self timeout)
  = Responded response →
  resp_status_code response = 200%Z →
  let run := login_information self h in
  let declared_json :=
    String.prefix "application/json"
      (default "" (resp_headers response !! "Content-Type")) in
  (declared_json = false → result_of run = Raise TypeError)
  ∧ (∀ m, declared_json = true →
     json_loads (resp_text response) = Some (PDict m) →
     (m !! "loginAccounts" = None →
      result_of run = Raise (KeyError (PStr "loginAccounts")))
     ∧ (m !! "loginAccounts" = Some (PList []) →
        result_of run = Raise IndexError)
     ∧ (∀ first rest, m !! "loginAccounts" = Some (PList (first :: rest)) →
        (∀ account, first ≠ PDict account) →
        result_of run = Raise TypeError)
     ∧ (∀ account rest,
        m !! "loginAccounts" = Some (PList (PDict account :: rest)) →
        account !! "accountId" = None →
        result_of run = Raise (KeyError (PStr "accountId")))).
Proof.
  intros Ht Hs Hc run declared_json. subst run declared_json.
  rewrite login_information_run, _request_run, Ht. simpl.
  unfold login_request in Hs. rewrite Hs, Hc. simpl.
  destruct (String.prefix _ _); split; try done.
  intros m _ Hj. unfold response_json. rewrite Hj. simpl.
  split_and!.
  - by intros ->.
  - by intros ->.
  - intros first rest -> Hf. unfold list_index. simpl.
    destruct first; try done. by destruct (Hf m0).
  - intros account rest -> Ha. unfold list_index. simpl. by rewrite Ha.
Qed.

End login_more.

(** ** The account-scoped methods as a family *)

Section family.
Context {ext : Externals}.

Lemma client_stable_ret {A} (a : A) : client_stable (ret a).
Proof. by intros self h. Qed.

Lemma client_stable_lift {A} (o : outcome A) : client_stable (lift o).
Proof. by intros self h. Qed.

Lemma client_stable_this : client_stable this.
Proof. by intros self h. Qed.

Lemma client_stable_bind {A B} (m : M A) (k : A → M B) :
  client_stable m → (∀ a, client_stable (k a)) → client_stable (bind m k).
Proof.
  intros Hm Hk self h. specialize (Hm self h). unfold bind, client_of in *.
  destruct (m self h) as [[[a|e] self1] e1]; simpl in *; [|done]. subst self1.
  specialize (Hk a self (h ++ e1)). unfold client_of in Hk.
  by destruct (k a self (h ++ e1)) as [[r self2] e2].
Qed.

Lemma client_stable_request url method headers data file_data
    expected_status_code sobo_email :
  client_stable (_request url method headers data file_data
                   expected_status_code sobo_email).
Proof. intros self h. apply _request_client. Qed.

Lemma client_stable_stream url headers :
  client_stable (requests_get_stream url headers).
Proof.
  intros self h. unfold requests_get_stream, bind, requests_call, client_of.
  simpl. by destruct (requests_send _ _).
Qed.

Lemma silent_ret {A} (a : A) : silent (ret a).
Proof. by intros self h. Qed.

Lemma silent_lift {A} (o : outcome A) : silent (lift o).
Proof. by intros self h. Qed.

Lemma silent_this : silent this.
Proof. by intros self h. Qed.

Lemma silent_bind {A B} (m : M A) (k : A → M B) :
  silent m → (∀ a, silent (k a)) → silent (bind m k).
Proof.
  intros Hm Hk self h. specialize (Hm self h). unfold bind, events_of in *.
  destruct (m self h) as [[[a|e] self1] e1]; simpl in *; [|done]. subst e1.
  specialize (Hk a self1 (h ++ [])). unfold events_of in Hk.
  by destruct (k a self1 (h ++ [])) as [[r self2] e2].
Qed.

Lemma single_shot_silent {A} (m : M A) : silent m → single_shot m.
Proof. intros Hm self h. left. apply Hm. Qed.

Lemma single_shot_request url method headers data file_data
    expected_status_code sobo_email :
  single_shot (_request url method headers data file_data
                 expected_status_code sobo_email).
Proof.
  intros self h. rewrite _request_run. unfold events_of.
  destruct (_timeout self); simpl; [|by left].
  destruct (requests_send _ _); simpl; [|by eauto 10].
  destruct (negb _); simpl; [by eauto 10|].
  destruct (String.prefix _ _); simpl; by eauto 10.
Qed.

Lemma single_shot_stream url headers :
  single_shot (requests_get_stream url headers).
Proof.
  intros self h. unfold requests_get_stream, bind, requests_call, events_of.
  simpl. destruct (requests_send _ _); simpl; by eauto 10.
Qed.

Lemma single_shot_bind_l {A B} (m : M A) (k : A → M B) :
  silent m → (∀ a, single_shot (k a)) → single_shot (bind m k).
Proof.
  intros Hm Hk self h. specialize (Hm self h). unfold bind, events_of in *.
  destruct (m self h) as [[[a|e] self1] e1]; simpl in *; [|by left].
  subst e1. specialize (Hk a self1 (h ++ [])). unfold events_of in Hk.
  by destruct (k a self1 (h ++ [])) as [[r self2] e2].
Qed.

Lemma single_shot_bind_r {A B} (m : M A) (k : A → M B) :
  single_shot m → (∀ a, silent (k a)) → single_shot (bind m k).
Proof.
  intros Hm Hk self h. specialize (Hm self h). unfold bind, events_of in *.
  destruct (m self h) as [[[a|e] self1] e1]; simpl in *; [|done].
  specialize (Hk a self1 (h ++ e1)). unfold events_of in Hk.
  destruct (k a self1 (h ++ e1)) as [[r self2] e2]. simpl in *. subst e2.
  by rewrite app_nil_r.
Qed.

Local Ltac client_stable_body :=
  repeat first
    [ apply client_stable_request
    | apply client_stable_stream
    | apply client_stable_ret
    | apply client_stable_lift
    | apply client_stable_this
    | apply client_stable_bind
    | intros ? ].

Local Ltac silent_body :=
  repeat first
    [ apply silent_ret
    | apply silent_lift
    | apply silent_this
    | apply silent_bind
    | intros ? ].

Local Ltac single_shot_body :=
  repeat first
    [ apply single_shot_request
    | apply single_shot_stream
    | apply single_shot_silent; solve [silent_body]
    | apply single_shot_bind_l; [solve [silent_body]|intros ?]
    | apply single_shot_bind_r; [|intros ?; solve [silent_body]] ].

Local Ltac login_free_body' :=
  repeat first
    [ apply login_free_request
    | apply login_free_stream
    | apply login_free_ret
    | apply login_free_lift
    | apply login_free_this
    | apply login_free_bind
    | intros ? ].

(** Every account-scoped operation is the guard followed by a body that
    never logs in, never changes the client and calls [requests] at most
    once. *)
Lemma perform_shape (op : account_operation) :
  ∃ (A : Type) (body : M A),
    perform op = void (_ <~ login_if_no_account_url ;; body)
    ∧ login_free body ∧ client_stable body ∧ single_shot body.
Proof.
  destruct op; simpl;
    unfold get_envelope, void_envelope, send_envelope, delete_envelope,
      search_envelopes, get_envelope_notification, get_envelope_custom_fields,
      post_envelope_custom_fields, put_envelope_custom_fields,
      get_envelope_recipients, post_recipient_view, put_envelope_recipients,
      get_envelope_document_list, get_envelope_document,
      download_envelope_documents, upload_document_to_envelope,
      delete_envelope_documents, get_template, get_audit_events,
      _create_envelope_from_document_request,
      _create_envelope_from_template_request, get, post, put, delete;
    eexists _, _; (split; [reflexivity|]); split_and!;
    first [ solve [login_free_body']
          | solve [client_stable_body]
          | solve [single_shot_body] ].
Qed.

(** One run of the guard. *)
Lemma guard_run (self : Client) (h : list event) :
  login_if_no_account_url self h
  = if str_truthy (account_url self) then (Ok tt, self, [])
    else match login_information self h with
         | (Ok _, self1, e1) => (Ok tt, self1, e1)
         | (Raise e, self1, e1) => (Raise e, self1, e1)
         end.
Proof.
  unfold login_if_no_account_url. unfold bind at 1, this. simpl.
  rewrite app_nil_r. destruct (str_truthy (account_url self)); [done|].
  simpl. unfold bind, ret.
  destruct (login_information self h) as [[[d|e] self1] e1]; [|done].
  by rewrite app_nil_r.
Qed.

(** One run of a guarded method. *)
Lemma guarded_run {A} (body : M A) (self : Client) (h : list event) :
  void (_ <~ login_if_no_account_url ;; body) self h
  = match login_if_no_account_url self h with
    | (Raise e, self1, e1) => (Raise e, self1, e1)
    | (Ok _, self1, e1) =>
        match body self1 (h ++ e1) with
        | (Ok _, self2, e2) => (Ok tt, self2, e1 ++ e2)
        | (Raise e, self2, e2) => (Raise e, self2, e1 ++ e2)
        end
    end.
Proof.
  unfold void, bind, ret.
  destruct (login_if_no_account_url self h) as [[[[]|e] self1] e1]; [|done].
  destruct (body self1 (h ++ e1)) as [[[a|e] self2] e2]; [|done].
  by rewrite app_nil_r.
Qed.

(** X7. When [account_url] is empty and the login fails, an account-scoped
    operation raises what the login raised, has caused the events of the
    login and nothing more, above all no request of its own, and leaves
    the client as it was. *)
Theorem failed_login_aborts (op : account_operation) (self : Client)
    (h : list event) e self1 e1 :
  account_url self = "" →
  login_information self h = (Raise e, self1, e1) →
  perform op self h = (Raise e, self, e1).
Proof.
  intros Hu Hl. destruct (perform_shape op) as (A & body & -> & _).
  rewrite guarded_run, guard_run, Hu, Hl. simpl.
  by rewrite (login_information_raise _ _ _ _ _ Hl).
Qed.

(** X8. After an account-scoped operation that returned, [account_url] is
    set, so no later account-scoped operation on that client logs in:
    the login happens at most once. *)
Theorem login_only_once (op : account_operation) (self : Client)
    (h : list event) :
  result_of (perform op self h) = Ok tt →
  account_url (client_of (perform op self h)) ≠ ""
  ∧ ∀ op' h', EvLogin ∉ events_of (perform op' (client_of (perform op self h))
                                     h').
Proof.
  intros Hok.
  assert (account_url (client_of (perform op self h)) ≠ "") as Hset.
  { destruct (perform_shape op) as (A & body & Hshape & _ & Hstable & _).
    rewrite Hshape in *. rewrite guarded_run, guard_run in *.
    destruct (str_truthy (account_url self)) eqn:Hu.
    - specialize (Hstable self (h ++ [])). unfold client_of in *.
      destruct (body self (h ++ [])) as [[[a|e] self2] e2]; simpl in *;
        subst self2; by destruct (account_url self).
    - destruct (login_information self h) as [[[d|e] self1] e1] eqn:Hl;
        [|done].
      specialize (Hstable self1 (h ++ e1)). unfold client_of in *.
      apply login_information_ok in Hl as [account ->].
      destruct (body _ (h ++ e1)) as [[[a|e] self2] e2]; simpl in *;
        subst self2; simpl; by destruct (root_url self). }
  split; [done|]. intros op' h'.
  destruct (perform_shape op') as (A & body & -> & Hfree & _).
  by apply guarded_method.
Qed.

(** X9. With [account_url] set, an account-scoped operation leaves the
    client as it was and calls [requests] at most once, whatever the
    answer: it does not retry, and it does not use [pycurl]. *)
Theorem known_account_single_shot (op : account_operation) (self : Client)
    (h : list event) :
  account_url self ≠ "" →
  let run := perform op self h in
  client_of run = self
  ∧ (events_of run = []
     ∨ ∃ rq, events_of run = [EvHttp rq]
             ∨ ∃ msg, events_of run = [EvHttp rq; EvLogError msg]).
Proof.
  intros Hu run. subst run.
  destruct (perform_shape op) as (A & body & -> & _ & Hstable & Hshot).
  rewrite guarded_run, guard_run.
  assert (str_truthy (account_url self) = true) as ->
    by by destruct (account_url self).
  specialize (Hstable self (h ++ [])). specialize (Hshot self (h ++ [])).
  unfold client_of, events_of in *.
  by destruct (body self (h ++ [])) as [[[a|e] self2] e2].
Qed.

End family.

(** ** Account information after a login, and construction *)

Section account_more.
Context {ext : Externals}.

(** X10. After a successful login, [get_account_information] without an
    argument requests the cached [account_url] behind [root_url]: the URL
    it calls holds the root twice. *)
Theorem get_account_information_after_login (self : Client)
    (h h' : list event) data self' events timeout :
  login_information self h = (Ok data, self', events) →
  _timeout self' = Some timeout →
  ∃ rq rest,
    events_of (get_account_information None self' h') = EvHttp rq :: rest
    ∧ rq_method rq = GET
    ∧ rq_url rq
      = root_url self +:+ root_url self +:+ "/accounts/"
        +:+ py_str (account_id self').
Proof.
  intros Hl Ht. apply login_information_ok in Hl as [account ->].
  unfold get_account_information, get, bind at 1, this. simpl.
  rewrite app_nil_r, _request_run, Ht. unfold events_of. simpl.
  destruct (requests_send _ _); simpl; [|by eauto 10].
  destruct (negb _); simpl; [by eauto 10|].
  destruct (String.prefix _ _); simpl; by eauto 10.
Qed.

(** X11. A client that [__init__] has built always has a timeout. An
    [account_url] argument is kept as given; without one, [account_url] is
    derived from [root_url] and [account_id] when both are known, whether
    they came from the arguments or from the environment, and is empty
    otherwise. A client built with a known root and account therefore never
    logs in. *)
Theorem init_account_url environ r u p k a au tk ot timeout (self : Client) :
  __init__ environ r u p k a au tk ot timeout = Ok self →
  (∃ t, _timeout self = Some t)
  ∧ root_url self
    = (if str_truthy r then r else default "" (environ !! "DOCUSIGN_ROOT_URL"))
  ∧ account_id self
    = (if truthy a then a
       else PStr (default "" (environ !! "DOCUSIGN_ACCOUNT_ID")))
  ∧ (au ≠ "" → account_url self = au)
  ∧ (au = "" → root_url self ≠ "" → truthy (account_id self) = true →
     account_url self
     = root_url self +:+ "/accounts/" +:+ py_str (account_id self))
  ∧ (au = "" → root_url self = "" ∨ truthy (account_id self) = false →
     account_url self = "")
  ∧ (root_url self ≠ "" → truthy (account_id self) = true →
     ∀ op h, EvLogin ∉ events_of (perform op self h)).
Proof.
  intros Hinit.
  assert (∃ t, self = set__timeout (Some t)
                        (init_attributes environ r u p k a au tk ot))
    as [t ->].
  { unfold __init__ in Hinit.
    assert (∀ v c, set_timeout v c = Ok self →
                   ∃ t, self = set__timeout (Some t) c) as Hset.
    { intros v c. unfold set_timeout. destruct (lower_than_ms v); [done|].
      destruct (truncate_ms v) as [t|]; [|done]. intros [= <-]. eauto. }
    destruct timeout as [v|]; [by eapply Hset|].
    destruct (environ_timeout environ) as [v|]; [by eapply Hset|done]. }
  unfold init_attributes, or_environ. simpl.
  set (root := if str_truthy r then r
               else default "" (environ !! "DOCUSIGN_ROOT_URL")).
  set (account := if truthy a then a
                  else PStr (default "" (environ !! "DOCUSIGN_ACCOUNT_ID"))).
  assert (au = "" → root ≠ "" → truthy account = true →
          (if str_truthy root && truthy account && negb (str_truthy au)
           then root +:+ "/accounts/" +:+ py_str account else au)
          = root +:+ "/accounts/" +:+ py_str account) as Hderived.
  { intros -> Hr ->. by destruct root. }
  split_and!; try done.
  - by exists t.
  - intros Hau. destruct au; [done|]. simpl. by rewrite andb_false_r.
  - intros -> [->| ->]; simpl; [done|]. by rewrite andb_false_r.
  - intros Hr Ha op h.
    destruct (perform_shape op) as (A & body & -> & Hfree & _).
    apply guarded_method; [done|]. simpl.
    destruct au as [|c au]; [|by rewrite andb_false_r].
    rewrite Hderived by done. by destruct root.
Qed.

End account_more.

(** ** OAuth2 and envelope creation: the failures *)

Section failures.
Context {ext : Externals}.

(** X12. The OAuth2 class methods do not catch the errors of [requests]:
    a request that gets no answer raises [RequestException] as it is, not
    a [DocuSignException]. On status 200, [oauth2_token_request] raises
    [KeyError] for a dictionary without [access_token], [TypeError] for a
    body that decodes to something else than a dictionary and the decoder's
    [ValueError] for a body that does not decode. *)
Theorem oauth2_failures (root_url username password integrator_key
    token : string) (h : list event) :
  let rq :=
    oauth2_token_request_sent root_url username password integrator_key in
  let rq' := oauth2_token_revoke_sent root_url token in
  let request :=
    oauth2_token_request root_url username password integrator_key h in
  (∀ e, requests_send h rq = Failed e →
        request = (Raise (RequestException e), [EvHttp rq]))
  ∧ (∀ e, requests_send h rq' = Failed e →
          oauth2_token_revoke root_url token h
          = (Raise (RequestException e), [EvHttp rq']))
  ∧ (∀ response, requests_send h rq = Responded response →
     resp_status_code response = 200%Z →
     (∀ m, json_loads (resp_text response) = Some (PDict m) →
           m !! "access_token" = None →
           request = (Raise (KeyError (PStr "access_token")), [EvHttp rq]))
     ∧ (∀ body, json_loads (resp_text response) = Some body →
                (∀ m, body ≠ PDict m) →
                request = (Raise TypeError, [EvHttp rq]))
     ∧ (json_loads (resp_text response) = None →
        request = (Raise (ValueError "No JSON object could be decoded"),
                   [EvHttp rq]))).
Proof.
  intros rq rq' request. subst rq rq' request.
  unfold oauth2_token_request, oauth2_token_revoke,
    oauth2_token_request_sent, oauth2_token_revoke_sent, response_json.
  simpl. split_and!.
  - by intros e ->.
  - by intros e ->.
  - intros response -> ->. simpl. split_and!.
    + intros m -> Hm. simpl. by rewrite Hm.
    + intros body -> Hb. destruct body; try done. by destruct (Hb m).
    + by intros ->.
Qed.

Lemma int_of_float_Raise (f : float) (e : exn) :
  int_of_float f = Raise e →
  (∃ msg, e = ValueError msg) ∨ (∃ msg, e = OverflowError msg).
Proof.
  unfold int_of_float. destruct (Prim2SF f); intros [= <-]; eauto.
Qed.

(** X13. A failing [_create_envelope] never changes [envelope.envelopeId]
    or the documents, and changes [envelope.client] only when the answer
    was a 201 that decoded and the [envelopeId] could not be read from it,
    a [KeyError] or a [TypeError]. When the exception is a
    [DocuSignException], the envelope is untouched and the status code was
    not 201. The method never uses [requests], and performs at most one
    transfer. *)
Theorem create_envelope_failure (envelope : Envelope) (parts : Parts)
    (self : Client) (h : list event) e envelope' events :
  _create_envelope envelope parts self h = (Raise e, envelope', events) →
  env_envelopeId envelope' = env_envelopeId envelope
  ∧ env_documents envelope' = env_documents envelope
  ∧ env_to_dict envelope' = env_to_dict envelope
  ∧ env_sobo_email envelope' = env_sobo_email envelope
  ∧ (envelope' = envelope
     ∨ (env_client envelope = None ∧ env_client envelope' = Some self
        ∧ (e = KeyError (PStr "envelopeId") ∨ e = TypeError)))
  ∧ (∀ r, e = DocuSignException (ArgResponse r) →
          envelope' = envelope ∧ status_code r ≠ 201%Z)
  ∧ (events = [] ∨ ∃ rq, events = [EvCurl rq]).
Proof.
  unfold _create_envelope.
  assert (∀ e0 ev, (∀ r, e0 ≠ DocuSignException (ArgResponse r)) →
            (ev = [] ∨ ∃ rq, ev = [EvCurl rq]) →
            (Raise (A := value) e0, envelope, ev)
            = (Raise e, envelope', events) →
            env_envelopeId envelope' = env_envelopeId envelope
            ∧ env_documents envelope' = env_documents envelope
            ∧ env_to_dict envelope' = env_to_dict envelope
            ∧ env_sobo_email envelope' = env_sobo_email envelope
            ∧ (envelope' = envelope
               ∨ (env_client envelope = None ∧ env_client envelope' = Some self
                  ∧ (e = KeyError (PStr "envelopeId") ∨ e = TypeError)))
            ∧ (∀ r, e = DocuSignException (ArgResponse r) →
                    envelope' = envelope ∧ status_code r ≠ 201%Z)
            ∧ (events = [] ∨ ∃ rq, events = [EvCurl rq])) as Huntouched.
  { intros e0 ev Hne Hev [= <- <- <-]. split_and!; try done; [by left|].
    intros r ->. by destruct (Hne r). }
  destruct (get_timeout self) as [timeout|] eqn:Ht.
  2: { apply Huntouched; [|by left]. intros r [= ->].
       unfold get_timeout in Ht. by destruct (_timeout self). }
  destruct (int_of_float _) as [timeout_ms|e1] eqn:Hms.
  2: { apply Huntouched; [|by left]. intros r ->.
       apply int_of_float_Raise in Hms as [[? ?]|[? ?]]; done. }
  destruct (setopt_long timeout_ms) as [timeout_ms'|e1] eqn:Hfit.
  2: { apply Huntouched; [|by left]. intros r ->.
       by apply setopt_long_Raise in Hfit as [? ?]. }
  destruct (curl_perform _ _) as [response|]; [|by apply Huntouched; eauto].
  destruct (status_code response =? 201)%Z eqn:Hc; simpl.
  2: { intros [= <- <- <-]. apply Z.eqb_neq in Hc.
       split_and!; try done; [by left| |by eauto].
       by intros r [= <-]. }
  destruct (json_loads (text response)) as [response_data|];
    [|by apply Huntouched; eauto].
  destruct (getitem_str response_data "envelopeId") as [envelopeId|e0] eqn:Hg.
  - destruct (negb (truthy _)); done.
  - apply getitem_str_Raise in Hg.
    assert (∀ r, e0 ≠ DocuSignException (ArgResponse r)) as Hne
      by (intros r; by destruct Hg as [->| ->]).
    destruct (negb (truthy _)); intros [= <- <- <-];
      destruct envelope as [d docs sobo [client|] eid]; simpl;
      split_and!; try done;
      first [ by left
            | by right
            | by eauto
            | by (intros r ->; destruct (Hne r)) ].
Qed.

(** X23. [_create_envelope] hands to [pycurl] only a transfer whose connect
    timeout is [int(self.timeout * 1000)] and fits a C long, and it is then
    the only event of the run. A run without event has left the envelope as
    it was and raised [AttributeError], [ValueError] or [OverflowError]. A
    timeout whose milliseconds do not fit a C long makes the method raise
    [OverflowError] before anything is sent, while [_request] sends its
    request with that same timeout. *)
Theorem create_envelope_timeout (envelope : Envelope) (parts : Parts)
    (self : Client) (h : list event) :
  (∀ rq, EvCurl rq ∈ (_create_envelope envelope parts self h).2 →
     ∃ timeout timeout_ms,
       _timeout self = Some timeout
       ∧ int_of_float (timeout * 1000)%float = Ok timeout_ms
       ∧ fits_long timeout_ms
       ∧ rq = curl_request_of parts timeout_ms
       ∧ (_create_envelope envelope parts self h).2 = [EvCurl rq])
  ∧ ((_create_envelope envelope parts self h).2 = [] →
     ∃ e, (_create_envelope envelope parts self h).1 = (Raise e, envelope)
          ∧ (e = AttributeError ∨ (∃ msg, e = ValueError msg)
             ∨ ∃ msg, e = OverflowError msg))
  ∧ (∀ timeout timeout_ms,
       _timeout self = Some timeout →
       int_of_float (timeout * 1000)%float = Ok timeout_ms →
       ¬ fits_long timeout_ms →
       (∃ msg, _create_envelope envelope parts self h
               = (Raise (OverflowError msg), envelope, []))
       ∧ ∀ url method headers data file_data expected_status_code sobo_email,
           ∃ rq rest,
             events_of (_request url method headers data file_data
                          expected_status_code sobo_email self h)
             = EvHttp rq :: rest
             ∧ rq_timeout rq = Some timeout).
Proof.
  assert (∀ n, setopt_long n = Ok n ∨
               (¬ fits_long n ∧
                setopt_long n = Raise (OverflowError "long too big to convert")))
    as Hlong.
  { intros n. unfold setopt_long, fits_long.
    destruct (Z.leb_spec (- 2 ^ 63) n), (Z.ltb_spec n (2 ^ 63)); simpl;
      first [by left | right; split; [lia|done]]. }
  assert (∀ n, setopt_long n = Ok n → fits_long n) as Hfits.
  { intros n. unfold setopt_long, fits_long.
    destruct (Z.leb_spec (- 2 ^ 63) n), (Z.ltb_spec n (2 ^ 63)); simpl;
      first [done | lia]. }
  unfold _create_envelope, get_timeout. split_and!.
  - intros rq. destruct (_timeout self) as [timeout|]; simpl;
      [|by intros ?%elem_of_nil].
    destruct (int_of_float _) as [timeout_ms|e] eqn:Hms;
      [|by intros ?%elem_of_nil].
    destruct (Hlong timeout_ms) as [Hok|[_ Hraise]];
      [rewrite Hok|rewrite Hraise; by intros ?%elem_of_nil].
    assert (∀ (r : outcome value) (envelope' : Envelope),
              EvCurl rq ∈ (r, envelope', [EvCurl (curl_request_of parts
                                                     timeout_ms)]).2 →
              ∃ timeout0 timeout_ms0,
                Some timeout = Some timeout0
                ∧ int_of_float (timeout0 * 1000)%float = Ok timeout_ms0
                ∧ fits_long timeout_ms0
                ∧ rq = curl_request_of parts timeout_ms0
                ∧ (r, envelope', [EvCurl (curl_request_of parts
                                            timeout_ms)]).2 = [EvCurl rq])
      as Hsent.
    { intros r envelope' Hin. apply list_elem_of_singleton in Hin as [= ->].
      exists timeout, timeout_ms. split_and!; try done. by apply Hfits. }
    unfold curl_request_of in Hsent.
    destruct (curl_perform _ _) as [response|]; [|by apply Hsent].
    destruct (negb _); [by apply Hsent|].
    destruct (json_loads _) as [response_data|]; [|by apply Hsent].
    destruct (negb (truthy _)); [|by apply Hsent].
    destruct (getitem_str _ _); by apply Hsent.
  - destruct (_timeout self) as [timeout|]; simpl; [|by eauto].
    destruct (int_of_float _) as [timeout_ms|e] eqn:Hms.
    2: { intros _. exists e. split; [done|]. right.
         by apply int_of_float_Raise in Hms. }
    destruct (Hlong timeout_ms) as [Hok|[_ Hraise]];
      [rewrite Hok|rewrite Hraise; by eauto 6].
    destruct (curl_perform _ _) as [response|]; [|done].
    destruct (negb _); [done|].
    destruct (json_loads _) as [response_data|]; [|done].
    destruct (negb (truthy _)); [|done].
    by destruct (getitem_str _ _).
  - intros timeout timeout_ms Ht Hms Hno. rewrite Ht. simpl. rewrite Hms.
    destruct (Hlong timeout_ms) as [Hok|[_ Hraise]];
      [by apply Hfits in Hok|].
    rewrite Hraise. split; [by eauto|].
    intros url method headers data file_data expected_status_code sobo_email.
    rewrite _request_run, Ht. simpl.
    destruct (requests_send _ _); [|by eauto].
    destruct (negb _); [by eauto|].
    destruct (String.prefix _ _); by eauto.
Qed.

End failures.

(** ** The request builders *)

Section builders.
Context {ext : Externals}.

(** After an account-scoped call that got past the guard, [account_url] is
    set. *)
Lemma guard_ok (self : Client) (h : list event) self1 e1 :
  login_if_no_account_url self h = (Ok tt, self1, e1) →
  str_truthy (account_url self1) = true.
Proof.
  rewrite guard_run. destruct (str_truthy (account_url self)) eqn:Hu.
  - by intros [= <- _].
  - destruct (login_information self h) as [[[d|e] self2] e2] eqn:Hl; [|done].
    intros [= <- _]. apply login_information_ok in Hl as [account ->].
    simpl. by destruct (root_url self).
Qed.

(** One run of [_create_envelope_from_document_request]. *)
Lemma document_request_run (envelope : Envelope) (self : Client)
    (h : list event) :
  _create_envelope_from_document_request envelope self h
  = match login_if_no_account_url self h with
    | (Raise e, self1, e1) => (Raise e, self1, e1)
    | (Ok _, self1, e1) =>
        let body := document_request_body (env_to_dict envelope)
                      (env_documents envelope) in
        (Ok (mkParts (account_url self1 +:+ "/envelopes")
               (<["Content-Length" := PInt (Z.of_nat (String.length body))]>
                  (<["Content-Type" :=
                       PStr "multipart/form-data; boundary=myboundary"]>
                     (base_headers self1 None)))
               body,
             mkEnvelope (env_to_dict envelope)
               (document_after_read <$> env_documents envelope)
               (env_sobo_email envelope) (env_client envelope)
               (env_envelopeId envelope)),
         self1, e1)
    end.
Proof.
  unfold _create_envelope_from_document_request. unfold bind at 1.
  destruct (login_if_no_account_url self h) as [[[[]|e] self1] e1]; [|done].
  unfold bind, this, ret. simpl. by rewrite app_nil_r.
Qed.

(** One run of [_create_envelope_from_template_request]. *)
Lemma template_request_run (envelope : Envelope) (self : Client)
    (h : list event) :
  _create_envelope_from_template_request envelope self h
  = match login_if_no_account_url self h with
    | (Raise e, self1, e1) => (Raise e, self1, e1)
    | (Ok _, self1, e1) =>
        let body := template_request_body (env_to_dict envelope) in
        (Ok (mkParts (account_url self1 +:+ "/envelopes")
               (<["Content-Length" := PInt (Z.of_nat (String.length body))]>
                  (<["Content-Type" :=
                       PStr "multipart/form-data; boundary=myboundary"]>
                     (base_headers self1 (env_sobo_email envelope))))
               body,
             envelope),
         self1, e1)
    end.
Proof.
  unfold _create_envelope_from_template_request. unfold bind at 1.
  destruct (login_if_no_account_url self h) as [[[[]|e] self1] e1]; [|done].
  unfold bind, this, ret. simpl. by rewrite app_nil_r.
Qed.

Lemma document_part_after_read (d : Document) :
  document_part (document_after_read d) = document_part d.
Proof. by destruct d as [name documentId [content pos]]. Qed.

Lemma document_after_read_twice (d : Document) :
  document_after_read (document_after_read d) = document_after_read d.
Proof.
  destruct d as [name documentId [content pos]].
  unfold document_after_read, file_read, file_seek. simpl.
  repeat f_equal; lia.
Qed.

Lemma docs_body_after_read (documents : list Document) :
  docs_body (document_after_read <$> documents) = docs_body documents.
Proof.
  induction documents as [|d ds IH]; [done|].
  rewrite fmap_cons, !docs_body_cons, IH. by rewrite document_part_after_read.
Qed.

(** X14. A document request can be built again: whatever the positions of
    the files were, the first build leaves every file at its end with its
    content unchanged, and building the request again from the envelope and
    the client it left yields the same URL, headers and body, without a
    login. *)
Theorem document_request_repeatable (envelope : Envelope) (self : Client)
    (h : list event) parts envelope1 self1 e1 :
  _create_envelope_from_document_request envelope self h
  = (Ok (parts, envelope1), self1, e1) →
  (∀ h', _create_envelope_from_document_request envelope1 self1 h'
         = (Ok (parts, envelope1), self1, []))
  ∧ Forall2
      (λ d d1,
         doc_name d1 = doc_name d
         ∧ doc_documentId d1 = doc_documentId d
         ∧ file_content (doc_data d1) = file_content (doc_data d)
         ∧ file_pos (doc_data d1) = String.length (file_content (doc_data d)))
      (env_documents envelope) (env_documents envelope1).
Proof.
  rewrite document_request_run.
  destruct (login_if_no_account_url self h) as [[[[]|e] self2] e2] eqn:Hg;
    [|done].
  intros [= <- <- <- <-]. apply guard_ok in Hg. split.
  - intros h'. rewrite document_request_run, guard_run, Hg. simpl.
    unfold document_request_body. rewrite docs_body_after_read.
    rewrite <- list_fmap_compose.
    rewrite (list_fmap_ext (document_after_read ∘ document_after_read)
               document_after_read (env_documents envelope)); [done|].
    intros i d _. apply document_after_read_twice.
  - simpl. apply Forall2_fmap_r, Forall_Forall2_diag, Forall_forall.
    intros [name documentId [content pos]] _. simpl. split_and!; try done.
Qed.

(** X15. The headers of a document request are the base headers without
    [sobo_email], whatever [envelope.sobo_email] is, so they never hold
    [X-DocuSign-Act-As-User]; the headers of a template request are the
    base headers for [envelope.sobo_email]. In both, [Content-Type] is the
    multipart one and [Content-Length] is the length of the body. *)
Theorem request_builders_headers (envelope : Envelope) (self : Client)
    (h : list event) parts envelope1 self1 e1 :
  (_create_envelope_from_document_request envelope self h
   = (Ok (parts, envelope1), self1, e1) →
   (∀ k, k ≠ "Content-Type" → k ≠ "Content-Length" →
         parts_headers parts !! k = base_headers self1 None !! k)
   ∧ parts_headers parts !! "X-DocuSign-Act-As-User" = None
   ∧ parts_headers parts !! "Content-Type"
     = Some (PStr "multipart/form-data; boundary=myboundary")
   ∧ parts_headers parts !! "Content-Length"
     = Some (PInt (Z.of_nat (String.length (parts_body parts)))))
  ∧ (_create_envelope_from_template_request envelope self h
     = (Ok (parts, envelope1), self1, e1) →
     (∀ k, k ≠ "Content-Type" → k ≠ "Content-Length" →
           parts_headers parts !! k
           = base_headers self1 (env_sobo_email envelope) !! k)
     ∧ parts_headers parts !! "Content-Type"
       = Some (PStr "multipart/form-data; boundary=myboundary")
     ∧ parts_headers parts !! "Content-Length"
       = Some (PInt (Z.of_nat (String.length (parts_body parts))))).
Proof.
  rewrite document_request_run, template_request_run.
  destruct (login_if_no_account_url self h) as [[[[]|e] self2] e2];
    [|by split].
  split; intros [= <- <- <- <-]; simpl.
  - split_and!.
    + intros k H1 H2. by rewrite !lookup_insert_ne.
    + rewrite !lookup_insert_ne by done. unfold base_headers.
      by destruct (str_truthy (oauth2_token self2)).
    + by rewrite lookup_insert_ne, lookup_insert_eq.
    + by rewrite lookup_insert_eq.
  - split_and!.
    + intros k H1 H2. by rewrite !lookup_insert_ne.
    + by rewrite lookup_insert_ne, lookup_insert_eq.
    + by rewrite lookup_insert_eq.
Qed.

End builders.

(** ** Single methods *)

Section methods.
Context {ext : Externals}.

(** One run of a method with [account_url] set: the guard does nothing. *)
Lemma known_account_run {A} (body : M A) (self : Client) (h : list event) :
  account_url self ≠ "" →
  (_ <~ login_if_no_account_url ;; body) self h = body self h.
Proof.
  intros Hu. unfold bind. rewrite (guard_set self h Hu), app_nil_r.
  by destruct (body self h) as [[r self1] e1].
Qed.

Lemma this_run {A} (k : Client → M A) (self : Client) (h : list event) :
  (self' <~ this ;; k self') self h = k self self h.
Proof.
  unfold bind, this. rewrite app_nil_r.
  by destruct (k self self h) as [[r self1] e1].
Qed.

(** X16. [delete_envelope_documents] takes an identifier that is not
    iterable as the list of that one identifier, and a string as the list
    of its characters. With no identifier at all it still sends its DELETE
    with a body, the JSON text of the empty dictionary; otherwise the body
    lists one [documentId] entry per identifier. *)
Theorem delete_envelope_documents_ids (envelope_id : value) (self : Client)
    (h : list event) :
  (∀ document_id, is_iterable document_id = false →
     delete_envelope_documents envelope_id document_id self h
     = delete_envelope_documents envelope_id (PList [document_id]) self h)
  ∧ (∀ s, delete_envelope_documents envelope_id (PStr s) self h
          = delete_envelope_documents envelope_id (PList (chars s)) self h)
  ∧ (∀ document_ids timeout,
       account_url self ≠ "" → _timeout self = Some timeout →
       ∃ rq rest,
         events_of (delete_envelope_documents envelope_id (PList document_ids)
                      self h) = EvHttp rq :: rest
         ∧ rq_method rq = DELETE
         ∧ rq_url rq = root_url self +:+ "/accounts/"
                       +:+ py_str (account_id self) +:+ "/envelopes/"
                       +:+ py_str envelope_id +:+ "/documents/"
         ∧ rq_data rq
           = DataRaw (json_dumps (PDict
               match document_ids with
               | [] => ∅
               | _ :: _ =>
                   {[ "documents" :=
                        PList ((λ document_id,
                                  PDict {[ "documentId" := document_id ]})
                                 <$> document_ids) ]}
               end))).
Proof.
  split_and!.
  - intros document_id Hi. unfold delete_envelope_documents.
    rewrite Hi. by destruct document_id.
  - done.
  - intros document_ids timeout Hu Ht. unfold delete_envelope_documents.
    rewrite known_account_run, this_run by done. simpl.
    unfold bind at 1, lift. simpl. rewrite app_nil_r.
    unfold delete. rewrite _request_run, Ht. unfold events_of. simpl.
    assert (∀ (d : gmap string value),
              match document_ids with
              | [] => ∅
              | _ :: _ => d
              end
              = match (λ document_id,
                         PDict {[ "documentId" := document_id ]})
                      <$> document_ids with
                | [] => ∅
                | _ :: _ => d
                end) as <- by by destruct document_ids.
    destruct (requests_send _ _); simpl; [|by eauto 10].
    destruct (negb _); simpl; [by eauto 10|].
    destruct (String.prefix _ _); simpl; by eauto 10.
Qed.

(** X17. [search_envelopes] drops a custom field that comes without a
    value, a value that comes without a field, and an empty status: the
    call is the one without them. *)
Theorem search_envelopes_filters (custom_field custom_field_value status
    from_date : value) (self : Client) (h : list event) :
  (truthy custom_field && truthy custom_field_value = false →
   search_envelopes custom_field custom_field_value status from_date self h
   = search_envelopes PNone PNone status from_date self h)
  ∧ (truthy status = false →
     search_envelopes custom_field custom_field_value status from_date self h
     = search_envelopes custom_field custom_field_value PNone from_date self h)
  ∧ (∀ timeout,
       account_url self ≠ "" → _timeout self = Some timeout →
       truthy custom_field = true → truthy custom_field_value = true →
       truthy status = true →
       ∃ rq rest,
         events_of (search_envelopes custom_field custom_field_value status
                      from_date self h) = EvHttp rq :: rest
         ∧ rq_method rq = GET
         ∧ rq_url rq
           = root_url self +:+ "/accounts/" +:+ py_str (account_id self)
             +:+ "/envelopes/" +:+ "?"
             +:+ urlencode
                   {[ "from_date" := from_date;
                      "custom_field" :=
                        PStr (py_str custom_field +:+ "="
                              +:+ py_str custom_field_value);
                      "status" := status ]}).
Proof.
  split_and!.
  - intros Hc. unfold search_envelopes. by rewrite Hc.
  - intros Hs. unfold search_envelopes. by rewrite Hs.
  - intros timeout Hu Ht Hf Hv Hs. unfold search_envelopes.
    rewrite known_account_run, this_run by done. rewrite Hf, Hv, Hs. simpl.
    unfold get. rewrite _request_run, Ht. unfold events_of. simpl.
    assert (∀ rq rest,
      rq_url rq = root_url self +:+
        ("/accounts/" +:+ py_str (account_id self) +:+ "/envelopes/") +:+ "?"
        +:+ urlencode
              (<["status":=status]>
                 (<["custom_field":=
                      PStr (py_str custom_field +:+ "="
                            +:+ py_str custom_field_value)]>
                    {["from_date" := from_date]})) →
      rq_method rq = GET →
      ∃ rq' rest', EvHttp rq :: rest = EvHttp rq' :: rest'
        ∧ rq_method rq' = GET
        ∧ rq_url rq'
          = root_url self +:+ "/accounts/" +:+ py_str (account_id self)
            +:+ "/envelopes/" +:+ "?"
            +:+ urlencode
                  {[ "from_date" := from_date;
                     "custom_field" :=
                       PStr (py_str custom_field +:+ "="
                             +:+ py_str custom_field_value);
                     "status" := status ]}) as Hgoal.
    { intros rq rest Hurl Hm. exists rq, rest. split_and!; try done.
      by rewrite Hurl, !append_assoc. }
    destruct (requests_send _ _); simpl; [|by apply Hgoal].
    destruct (negb _); simpl; [by apply Hgoal|].
    destruct (String.prefix _ _); simpl; by apply Hgoal.
Qed.

(** X18. The two download methods do not look at the status code: with
    [account_url] set, [get_envelope_document] and
    [download_envelope_documents] send one streaming GET with the base
    headers and no timeout, and return the raw stream of whatever response
    came, also of a 404; an error of [requests] is raised as it is. They
    do not read the timeout, so they work after [del_timeout] too. *)
Theorem downloads_skip_status_check (envelopeId documentId watermark
    certificate : value) (self : Client) (h : list event) :
  account_url self ≠ "" →
  let stream rq :=
    (match requests_send h rq with
     | Responded response => Ok response
     | Failed e => Raise (RequestException e)
     end, self, [EvHttp rq]) in
  get_envelope_document envelopeId documentId self h
  = stream (mkRequest GET
              (root_url self +:+ "/accounts/" +:+ py_str (account_id self)
               +:+ "/envelopes/" +:+ py_str envelopeId
               +:+ "/documents/" +:+ py_str documentId)
              (base_headers self None) DataNone None true)
  ∧ download_envelope_documents envelopeId watermark certificate self h
    = stream (mkRequest GET
                ((root_url self +:+ "/accounts/" +:+ py_str (account_id self)
                  +:+ "/envelopes/" +:+ py_str envelopeId
                  +:+ "/documents/combined/")
                 +:+ "?"
                 +:+ urlencode {[ "watermark" := watermark;
                                  "certificate" := certificate ]})
                (base_headers self None) DataNone None true).
Proof.
  intros Hu stream. subst stream.
  unfold get_envelope_document, download_envelope_documents.
  rewrite !known_account_run, !this_run by done. simpl.
  unfold requests_get_stream, bind, requests_call, raise, ret. simpl.
  split; by destruct (requests_send _ _).
Qed.

(** X19. With [account_url] set and a 200 answer,
    [get_envelope_document_list] returns the [envelopeDocuments] of the
    decoded dictionary, raises [KeyError] when the dictionary has none, and
    raises [TypeError] when the answer is not declared as JSON, since the
    text of the response cannot be indexed by a name. *)
Theorem get_envelope_document_list_result (envelopeId : value)
    (self : Client) (h : list event) timeout response :
  account_url self ≠ "" →
  _timeout self = Some timeout →
  requests_send h
    (request_of self
       ("/accounts/" +:+ py_str (account_id self) +:+ "/envelopes/"
        +:+ py_str envelopeId +:+ "/documents")
       GET None None None None timeout) = Responded response →
  resp_status_code response = 200%Z →
  let result := result_of (get_envelope_document_list envelopeId self h) in
  let declared_json :=
    String.prefix "application/json"
      (default "" (resp_headers response !! "Content-Type")) in
  (declared_json = false → result = Raise TypeError)
  ∧ (∀ m, declared_json = true →
     json_loads (resp_text response) = Some (PDict m) →
     result = match m !! "envelopeDocuments" with
              | Some documents => Ok documents
              | None => Raise (KeyError (PStr "envelopeDocuments"))
              end).
Proof.
  intros Hu Ht Hs Hc result declared_json. subst result declared_json.
  unfold get_envelope_document_list.
  rewrite known_account_run, this_run by done. simpl.
  unfold bind, get, lift. rewrite _request_run, Ht. simpl.
  rewrite Hs, Hc. simpl. unfold result_of.
  destruct (String.prefix _ _); split; try done.
  intros m _ Hj. unfold response_json. rewrite Hj. simpl.
  by destruct (m !! "envelopeDocuments").
Qed.



End methods.

(** ** The framing of the request bodies, in general *)

Lemma crlf_lines_from_other (c : ascii) (s acc : string) :
  c ≠ "013"%char →
  crlf_lines_from (String c s) acc = crlf_lines_from s (String c acc).
Proof.
  destruct c as [[] [] [] [] [] [] [] []]; intros Hc; try done;
    destruct s as [|c' s]; done.
Qed.

Lemma crlf_lines_from_cr_other (c : ascii) (s acc : string) :
  c ≠ "010"%char →
  crlf_lines_from (String "013" (String c s)) acc
  = crlf_lines_from (String c s) (String "013" acc).
Proof.
  destruct c as [[] [] [] [] [] [] [] []]; intros Hc; done.
Qed.

(** A segment followed by CRLF contributes its own lines. *)
Lemma crlf_lines_from_segment (n : nat) (s : string) :
  (String.length s ≤ n)%nat →
  ∀ acc rest,
    crlf_lines_from (s +:+ CRLF +:+ rest) acc
    = crlf_lines_from s acc ++ crlf_lines_from rest "".
Proof.
  revert s. induction n as [|n IH]; intros s Hn acc rest.
  - destruct s; [done|simpl in Hn; lia].
  - destruct s as [|c s]; [done|]. simpl in Hn. rewrite append_cons.
    destruct (decide (c = "013"%char)) as [->|Hc].
    + destruct s as [|c2 s]; [done|]. rewrite append_cons.
      destruct (decide (c2 = "010"%char)) as [->|Hc2].
      * simpl. f_equal. apply IH. simpl in Hn. lia.
      * rewrite !crlf_lines_from_cr_other by done.
        rewrite <- append_cons. apply IH. simpl in *. lia.
    + rewrite !crlf_lines_from_other by done. apply IH. lia.
Qed.

Lemma crlf_lines_from_one (s acc : string) :
  no_cr s = true → crlf_lines_from s acc = [String.rev_app acc s].
Proof.
  revert acc. induction s as [|c s IH]; intros acc Hs; [done|].
  simpl in Hs. apply andb_true_iff in Hs as [Hc Hs].
  rewrite crlf_lines_from_other.
  - by rewrite IH.
  - intros ->. done.
Qed.

Lemma crlf_lines_one (s : string) : no_cr s = true → crlf_lines s = [s].
Proof. intros Hs. unfold crlf_lines. by rewrite crlf_lines_from_one. Qed.

Lemma no_cr_app (a b : string) : no_cr (a +:+ b) = no_cr a && no_cr b.
Proof.
  induction a as [|c a IH]; [done|]. rewrite append_cons. simpl.
  by rewrite IH, andb_assoc.
Qed.

Lemma crlf_joined_app (a b : list string) :
  crlf_joined (a ++ b) = crlf_joined a +:+ crlf_joined b.
Proof.
  induction a as [|seg a IH]; [done|]. simpl. rewrite IH.
  by rewrite !append_assoc.
Qed.

(** The lines of joined segments are the lines of the segments, and the
    empty line after the last CRLF. *)
Lemma crlf_lines_joined (segs : list string) :
  crlf_lines (crlf_joined segs) = concat (crlf_lines <$> segs) ++ [""].
Proof.
  induction segs as [|seg segs IH]; [done|]. simpl. unfold crlf_lines at 1.
  rewrite (crlf_lines_from_segment (String.length seg)) by done.
  fold (crlf_lines seg). fold (crlf_lines (crlf_joined segs)).
  by rewrite IH, app_assoc.
Qed.

Lemma framed_parts_cons (line : string) (rest : list string)
    (part : option (list string)) :
  framed_parts "myboundary" (line :: rest) part
  = if String.eqb line "--myboundary--"
    then match part with Some p => [reverse p] | None => [] end
    else if String.eqb line "--myboundary"
    then match part with Some p => [reverse p] | None => [] end
         ++ framed_parts "myboundary" rest (Some [])
    else framed_parts "myboundary" rest (cons line <$> part).
Proof. done. Qed.

Lemma framed_parts_plain (lines rest : list string)
    (part : option (list string)) :
  Forall (λ line, plain_line line = true) lines →
  framed_parts "myboundary" (lines ++ rest) part
  = framed_parts "myboundary" rest ((λ p, reverse lines ++ p) <$> part).
Proof.
  revert part. induction lines as [|line lines IH]; intros part Hl.
  - by destruct part.
  - apply Forall_cons in Hl as [Hline Hl]. unfold plain_line in Hline.
    apply andb_true_iff in Hline as [H1 H2].
    apply negb_true_iff in H1, H2.
    rewrite <- app_comm_cons, framed_parts_cons, H1, H2, IH by done.
    f_equal. destruct part as [p|]; [|done]. simpl.
    by rewrite reverse_cons, <- app_assoc.
Qed.

Lemma framed_parts_plain_cons (line : string) (rest : list string)
    (part : option (list string)) :
  plain_line line = true →
  framed_parts "myboundary" (line :: rest) part
  = framed_parts "myboundary" rest (cons line <$> part).
Proof.
  intros Hl. unfold plain_line in Hl. apply andb_true_iff in Hl as [H1 H2].
  apply negb_true_iff in H1, H2. by rewrite framed_parts_cons, H1, H2.
Qed.

Lemma framed_parts_delimiter (rest : list string)
    (part : option (list string)) :
  framed_parts "myboundary" ("--myboundary" :: rest) part
  = match part with Some p => [reverse p] | None => [] end
    ++ framed_parts "myboundary" rest (Some []).
Proof. done. Qed.

Lemma framed_parts_close (rest : list string) (part : option (list string)) :
  framed_parts "myboundary" ("--myboundary--" :: rest) part
  = match part with Some p => [reverse p] | None => [] end.
Proof. done. Qed.

Section framing.
Context {ext : Externals}.

(** The segments of a document's part. *)
Lemma document_part_joined (d : Document) :
  document_part d
  = crlf_joined [ "--myboundary"; "Content-Type:application/pdf";
                  disposition_line d; ""; file_content (doc_data d); "" ].
Proof.
  destruct d as [name documentId [content pos]].
  unfold document_part, disposition_line, crlf_joined.
  cbn [doc_name doc_documentId doc_data file_content foldr].
  rewrite (file_read_from_start content pos).
  by rewrite !append_assoc.
Qed.

Lemma docs_body_joined (documents : list Document) :
  docs_body documents
  = crlf_joined
      (concat ((λ d, [ "--myboundary"; "Content-Type:application/pdf";
                       disposition_line d; ""; file_content (doc_data d);
                       "" ]) <$> documents)).
Proof.
  induction documents as [|d ds IH]; [done|].
  rewrite docs_body_cons, fmap_cons, concat_cons, crlf_joined_app.
  by rewrite IH, document_part_joined.
Qed.

Lemma disposition_line_one (d : Document) :
  no_cr (py_str (doc_name d)) = true →
  no_cr (py_str (doc_documentId d)) = true →
  crlf_lines (disposition_line d) = [disposition_line d]
  ∧ plain_line (disposition_line d) = true.
Proof.
  intros Hn Hi. split; [|done]. apply crlf_lines_one.
  unfold disposition_line. by rewrite !no_cr_app, Hn, Hi.
Qed.

(** The lines of the segments of one document's part. *)
Lemma document_segments_lines (d : Document) :
  no_cr (py_str (doc_name d)) = true →
  no_cr (py_str (doc_documentId d)) = true →
  concat (crlf_lines <$>
            [ "--myboundary"; "Content-Type:application/pdf";
              disposition_line d; ""; file_content (doc_data d); "" ])
  = "--myboundary" :: document_part_lines d.
Proof.
  intros Hn Hi. destruct (disposition_line_one d Hn Hi) as [Hone _].
  rewrite !fmap_cons, fmap_nil, !concat_cons, concat_nil, Hone.
  change (crlf_lines "--myboundary") with ["--myboundary"].
  change (crlf_lines "Content-Type:application/pdf")
    with ["Content-Type:application/pdf"].
  change (crlf_lines "") with [""].
  unfold document_part_lines. by rewrite app_nil_r.
Qed.

Lemma document_part_lines_plain (d : Document) :
  frameable d →
  Forall (λ line, plain_line line = true) (document_part_lines d).
Proof.
  intros (Hn & Hi & Hc). destruct (disposition_line_one d Hn Hi) as [_ Hp].
  unfold document_part_lines. apply Forall_app. split.
  - by repeat constructor.
  - apply Forall_app. split; [done|]. by apply Forall_singleton.
Qed.

(** The lines of the documents' parts, and what frames them. *)
Lemma framed_parts_documents (documents : list Document)
    (part : list string) :
  Forall frameable documents →
  framed_parts "myboundary"
    (concat (crlf_lines <$>
       concat ((λ d, [ "--myboundary"; "Content-Type:application/pdf";
                       disposition_line d; ""; file_content (doc_data d);
                       "" ]) <$> documents))
     ++ [ "--myboundary--"; ""; "" ])
    (Some part)
  = reverse part :: (document_part_lines <$> documents).
Proof.
  revert part. induction documents as [|d ds IH]; intros part Hd; [done|].
  apply Forall_cons in Hd as [Hf Hd].
  pose proof (document_part_lines_plain d Hf) as Hplain.
  destruct Hf as (Hn & Hi & Hc).
  rewrite fmap_cons, concat_cons, fmap_app, concat_app.
  rewrite (document_segments_lines d Hn Hi).
  rewrite <- app_assoc, <- app_comm_cons, framed_parts_delimiter.
  rewrite (framed_parts_plain _ _ _ Hplain).
  cbn [fmap option_fmap option_map]. rewrite IH by done.
  by rewrite app_nil_r, reverse_involutive.
Qed.

(** X20. For every envelope whose JSON text is one line and whose
    documents hold no delimiter line, the body that
    [_create_envelope_from_document_request] builds splits at its delimiter
    lines into the JSON part, one empty part, and one part per document in
    order, each made of its two header lines, an empty line and the lines
    of the whole file. *)
Theorem document_request_framing (data : value) (documents : list Document) :
  no_cr (json_dumps data) = true →
  plain_line (json_dumps data) = true →
  Forall frameable documents →
  multipart_parts "myboundary" (document_request_body data documents)
  = json_part_lines data :: [] :: (document_part_lines <$> documents).
Proof.
  intros Hj Hp Hd.
  assert (document_request_body data documents
          = crlf_joined
              ([ ""; ""; "--myboundary";
                 "Content-Type: application/json; charset=UTF-8";
                 "Content-Disposition: form-data"; ""; json_dumps data;
                 "--myboundary" ]
               ++ concat ((λ d, [ "--myboundary";
                                  "Content-Type:application/pdf";
                                  disposition_line d; "";
                                  file_content (doc_data d); "" ])
                          <$> documents)
               ++ [ "--myboundary--"; "" ])) as ->.
  { rewrite !crlf_joined_app, <- docs_body_joined.
    unfold document_request_body, crlf_joined. simpl.
    by rewrite !append_assoc. }
  unfold multipart_parts. rewrite crlf_lines_joined.
  rewrite !fmap_app, !concat_app.
  rewrite !fmap_cons, !fmap_nil, !concat_cons, !concat_nil.
  rewrite (crlf_lines_one _ Hj).
  change (crlf_lines "") with [""].
  change (crlf_lines "--myboundary") with ["--myboundary"].
  change (crlf_lines "--myboundary--") with ["--myboundary--"].
  change (crlf_lines "Content-Type: application/json; charset=UTF-8")
    with ["Content-Type: application/json; charset=UTF-8"].
  change (crlf_lines "Content-Disposition: form-data")
    with ["Content-Disposition: form-data"].
  rewrite app_nil_r, <- !app_assoc.
  cbn [app].
  rewrite 2!framed_parts_plain_cons by done.
  rewrite framed_parts_delimiter.
  rewrite 4!framed_parts_plain_cons by done.
  rewrite framed_parts_delimiter.
  cbn [fmap option_fmap option_map app].
  by rewrite framed_parts_documents.
Qed.

(** X21. For every envelope whose JSON text is one line, the body that
    [_create_envelope_from_template_request] builds splits at its delimiter
    lines into the JSON part alone, from which the JSON text is read
    back. *)
Theorem template_request_framing (data : value) :
  no_cr (json_dumps data) = true →
  plain_line (json_dumps data) = true →
  multipart_parts "myboundary" (template_request_body data)
  = [json_part_lines data]
  ∧ last (json_part_lines data) = Some (json_dumps data).
Proof.
  intros Hj Hp. split; [|done].
  assert (template_request_body data
          = crlf_joined
              [ ""; ""; "--myboundary";
                "Content-Type: application/json; charset=UTF-8";
                "Content-Disposition: form-data"; ""; json_dumps data;
                "--myboundary--"; "" ]) as ->.
  { done. }
  unfold multipart_parts. rewrite crlf_lines_joined.
  rewrite !fmap_cons, !fmap_nil, !concat_cons, !concat_nil.
  rewrite (crlf_lines_one _ Hj).
  change (crlf_lines "") with [""].
  change (crlf_lines "--myboundary") with ["--myboundary"].
  change (crlf_lines "--myboundary--") with ["--myboundary--"].
  change (crlf_lines "Content-Type: application/json; charset=UTF-8")
    with ["Content-Type: application/json; charset=UTF-8"].
  change (crlf_lines "Content-Disposition: form-data")
    with ["Content-Disposition: form-data"].
  cbn [app].
  rewrite 2!framed_parts_plain_cons by done.
  rewrite framed_parts_delimiter.
  rewrite 4!framed_parts_plain_cons by done.
  by rewrite framed_parts_close.
Qed.

End framing.

(** * The further properties on concrete runs *)

Lemma request_connection_error_witness :
  let ext := sample_externals [] (unreachable "timed out") no_curl in
  _request "/accounts/42/" GET None None None 200 None sample_oauth_client []
  = (Raise (DocuSignException (ArgMsg
       ("DocuSign request error: GET "
        +:+ "https://demo.docusign.net/restapi/v2/accounts/42/"
        +:+ " failed ; Error: timed out"))),
     sample_oauth_client,
     [EvHttp (request_of sample_oauth_client "/accounts/42/" GET None None
                None None 30);
      EvLogError
        ("DocuSign request error: GET "
         +:+ "https://demo.docusign.net/restapi/v2/accounts/42/"
         +:+ " failed ; Error: timed out")]).
Proof.
  intros ext.
  apply (request_connection_error (ext := ext) "/accounts/42/" GET None None
           None 200 None sample_oauth_client [] 30%float "timed out"
           eq_refl eq_refl).
Defined.

Lemma request_headers_precedence_witness :
  let ext := sample_externals sample_bodies (always empty_object_200) no_curl in
  ∃ rq rest,
    events_of (_request "/accounts/42/envelopes/e-1/documents/1" PUT
                 (Some {[ "Content-Type" := PStr "application/pdf" ]})
                 None (Some "%PDF-1.4 sample") 200 None sample_oauth_client [])
    = EvHttp rq :: rest
    ∧ rq_headers rq !! "Content-Type" = Some (PStr "application/pdf")
    ∧ rq_headers rq !! "Authorization" = Some (PStr "Bearer token")
    ∧ rq_headers rq !! "Accept" = Some (PStr "application/json").
Proof.
  intros ext.
  destruct (request_headers_precedence (ext := ext)
              "/accounts/42/envelopes/e-1/documents/1" PUT
              {[ "Content-Type" := PStr "application/pdf" ]} None
              (Some "%PDF-1.4 sample") 200 None sample_oauth_client []
              30%float eq_refl)
    as (rq & rest & Hev & Hgiven & Hbase & Haccept).
  exists rq, rest. split_and!; [done| | |done].
  - by apply Hgiven.
  - by rewrite Hbase.
Defined.

Lemma timeout_lifecycle_witness :
  ∃ deleted,
    del_timeout (set__timeout (Some 1.234%float) sample_client) = Ok deleted
    ∧ get_timeout deleted = Raise AttributeError
    ∧ set_timeout (NFloat 1.2345) deleted
      = Ok (set__timeout (Some 1.234%float) sample_client).
Proof.
  destruct (timeout_lifecycle (ext := sample_externals [] no_server no_curl)
              (NFloat 1.2345) sample_client
              (set__timeout (Some 1.234%float) sample_client) eq_refl)
    as (_ & _ & _ & _ & _ & _ & _ & _ & _ & deleted & Hd & Hg & _ & _ & Hs).
  by exists deleted.
Defined.

Lemma login_information_errors_witness :
  let ext := sample_externals sample_bodies (always empty_object_200) no_curl in
  result_of (login_information fresh_client [])
  = Raise (KeyError (PStr "loginAccounts")).
Proof.
  intros ext.
  destruct (login_information_errors (ext := ext) fresh_client [] 30%float
              empty_object_200 eq_refl eq_refl eq_refl) as [_ H].
  by apply (H ∅).
Defined.

Lemma failed_login_aborts_witness :
  let ext := sample_externals [] (unreachable "timed out") no_curl in
  ∃ e events,
    login_information fresh_client [] = (Raise e, fresh_client, events)
    ∧ perform (Op_get_envelope (PStr "e-1")) fresh_client []
      = (Raise e, fresh_client, events)
    ∧ length events = 3.
Proof.
  intros ext.
  destruct (login_information (ext := ext) fresh_client [])
    as [[[d|e] self1] events] eqn:Hl; [by vm_compute in Hl|].
  assert (self1 = fresh_client) as -> by (by vm_compute in Hl; simplify_eq).
  exists e, events. split_and!; [done| |by vm_compute in Hl; simplify_eq].
  by apply (failed_login_aborts (ext := ext) (Op_get_envelope (PStr "e-1"))
              fresh_client [] e fresh_client events eq_refl).
Defined.

Lemma login_only_once_witness :
  let ext := sample_externals sample_bodies (always login_200) no_curl in
  account_url (client_of (perform (Op_get_envelope (PStr "e-1")) fresh_client
                            []))
  = "https://demo.docusign.net/restapi/v2/accounts/42"
  ∧ EvLogin ∉ events_of
      (perform (Op_send_envelope (PStr "e-1"))
         (client_of (perform (Op_get_envelope (PStr "e-1")) fresh_client []))
         []).
Proof.
  intros ext. split; [by vm_compute|].
  by apply (login_only_once (ext := ext) (Op_get_envelope (PStr "e-1"))
              fresh_client [] eq_refl).
Defined.

Lemma known_account_single_shot_witness :
  let ext := sample_externals sample_bodies (always not_found_404) no_curl in
  client_of (perform (Op_get_template (PStr "t-1")) sample_oauth_client [])
  = sample_oauth_client.
Proof.
  intros ext.
  by apply (known_account_single_shot (ext := ext)
              (Op_get_template (PStr "t-1")) sample_oauth_client []).
Defined.

Lemma get_account_information_after_login_witness :
  let ext := sample_externals sample_bodies (always login_200) no_curl in
  ∃ rq rest,
    events_of (get_account_information None
                 (client_of (login_information fresh_client [])) [])
    = EvHttp rq :: rest
    ∧ rq_url rq
      = "https://demo.docusign.net/restapi/v2"
        +:+ "https://demo.docusign.net/restapi/v2/accounts/42".
Proof.
  intros ext.
  assert (login_information fresh_client []
          = (Ok login_data, client_of (login_information fresh_client []),
             [EvLogin; EvHttp (login_request fresh_client 30)])) as Hl
    by by vm_compute.
  destruct (get_account_information_after_login (ext := ext) fresh_client
              [] [] login_data
              (client_of (login_information fresh_client []))
              [EvLogin; EvHttp (login_request fresh_client 30)] 30%float
              Hl eq_refl)
    as (rq & rest & Hev & _ & Hurl).
  exists rq, rest. split; [done|]. rewrite Hurl. by vm_compute.
Defined.

Lemma init_account_url_witness :
  let ext := sample_externals [] no_server no_curl in
  let self :=
    mkClient "https://demo.docusign.net/restapi/v2" "" "" "" (PStr "42") ""
      "token" "https://demo.docusign.net/restapi/v2/accounts/42"
      (Some 30%float) in
  __init__ {[ "DOCUSIGN_ROOT_URL" := "https://demo.docusign.net/restapi/v2";
              "DOCUSIGN_ACCOUNT_ID" := "42" ]}
    "" "" "" "" (PStr "") "" None (Some "token") None = Ok self
  ∧ ∀ op h, EvLogin ∉ events_of (perform op self h).
Proof.
  intros ext self.
  assert (__init__
            {[ "DOCUSIGN_ROOT_URL" := "https://demo.docusign.net/restapi/v2";
               "DOCUSIGN_ACCOUNT_ID" := "42" ]}
            "" "" "" "" (PStr "") "" None (Some "token") None = Ok self)
    as Hinit by by vm_compute.
  split; [done|].
  by apply (init_account_url (ext := ext) _ _ _ _ _ _ _ _ _ _ _ Hinit).
Defined.

Lemma oauth2_failures_witness :
  let ext := sample_externals sample_bodies (always empty_object_200) no_curl in
  let ext' := sample_externals [] (unreachable "timed out") no_curl in
  (oauth2_token_request (ext := ext) "https://demo.docusign.net/restapi/v2"
     "user" "secret" "key" []).1
  = Raise (KeyError (PStr "access_token"))
  ∧ (oauth2_token_revoke (ext := ext') "https://demo.docusign.net/restapi/v2"
       "abc" []).1
    = Raise (RequestException "timed out").
Proof.
  intros ext ext'. split.
  - destruct (oauth2_failures (ext := ext)
                "https://demo.docusign.net/restapi/v2" "user" "secret" "key"
                "abc" []) as (_ & _ & H).
    destruct (H empty_object_200 eq_refl eq_refl) as (Hkey & _).
    by rewrite (Hkey ∅ eq_refl eq_refl).
  - destruct (oauth2_failures (ext := ext')
                "https://demo.docusign.net/restapi/v2" "user" "secret" "key"
                "abc" []) as (_ & H & _).
    by rewrite (H "timed out" eq_refl).
Defined.

Lemma create_envelope_failure_witness :
  let ext := sample_externals sample_bodies no_server
               (always_curl curl_error_500) in
  _create_envelope sample_envelope sample_parts sample_oauth_client []
  = (Raise (DocuSignException (ArgResponse curl_error_500)), sample_envelope,
     [EvCurl (curl_request_of sample_parts 30000)])
  ∧ status_code curl_error_500 ≠ 201%Z.
Proof.
  intros ext.
  destruct (create_envelope_failure (ext := ext) sample_envelope sample_parts
              sample_oauth_client []
              (DocuSignException (ArgResponse curl_error_500)) sample_envelope
              [EvCurl (curl_request_of sample_parts 30000)] eq_refl)
    as (_ & _ & _ & _ & _ & H & _).
  split; [done|]. by apply (H curl_error_500).
Defined.

Lemma document_request_repeatable_witness :
  let ext := sample_externals [] no_server no_curl in
  ∃ parts envelope1,
    _create_envelope_from_document_request sample_envelope sample_oauth_client
      [] = (Ok (parts, envelope1), sample_oauth_client, [])
    ∧ _create_envelope_from_document_request envelope1 sample_oauth_client []
      = (Ok (parts, envelope1), sample_oauth_client, [])
    ∧ file_pos ∘ doc_data <$> env_documents envelope1 = [15].
Proof.
  intros ext.
  destruct (_create_envelope_from_document_request sample_envelope
              sample_oauth_client [])
    as [[[[parts envelope1]|e] self1] e1] eqn:Hrun; [|by vm_compute in Hrun].
  assert (self1 = sample_oauth_client ∧ e1 = []) as [-> ->]
    by (by vm_compute in Hrun; simplify_eq).
  destruct (document_request_repeatable (ext := ext) sample_envelope
              sample_oauth_client [] parts envelope1 sample_oauth_client []
              Hrun) as [Hagain _].
  exists parts, envelope1. split_and!; [done|by apply Hagain|].
  by vm_compute in Hrun; simplify_eq.
Defined.

Lemma request_builders_headers_witness :
  let ext := sample_externals [] no_server no_curl in
  let envelope :=
    mkEnvelope (PDict ∅) [] (Some "boss@example.com") None (PStr "") in
  ∃ parts parts' envelope1,
    _create_envelope_from_document_request envelope sample_oauth_client []
    = (Ok (parts, envelope1), sample_oauth_client, [])
    ∧ parts_headers parts !! "X-DocuSign-Act-As-User" = None
    ∧ _create_envelope_from_template_request envelope sample_oauth_client []
      = (Ok (parts', envelope), sample_oauth_client, [])
    ∧ parts_headers parts' !! "X-DocuSign-Act-As-User"
      = Some (PStr "boss@example.com").
Proof.
  intros ext envelope.
  destruct (_create_envelope_from_document_request envelope
              sample_oauth_client [])
    as [[[[parts envelope1]|e] self1] e1] eqn:Hdoc; [|by vm_compute in Hdoc].
  destruct (_create_envelope_from_template_request envelope
              sample_oauth_client [])
    as [[[[parts' envelope2]|e] self2] e2] eqn:Htpl; [|by vm_compute in Htpl].
  assert (self1 = sample_oauth_client ∧ e1 = []) as [-> ->]
    by (by vm_compute in Hdoc; simplify_eq).
  assert (self2 = sample_oauth_client ∧ e2 = [] ∧ envelope2 = envelope)
    as (-> & -> & ->) by (by vm_compute in Htpl; simplify_eq).
  exists parts, parts', envelope1. split_and!; try done.
  - by apply (request_builders_headers (ext := ext) envelope
                sample_oauth_client [] parts envelope1 sample_oauth_client []).
  - destruct (request_builders_headers (ext := ext) envelope
                sample_oauth_client [] parts' envelope sample_oauth_client [])
      as [_ H].
    destruct (H Htpl) as (Hbase & _). by rewrite Hbase.
Defined.

Lemma downloads_skip_status_check_witness :
  let ext := sample_externals [] (always not_found_404) no_curl in
  result_of (get_envelope_document (PStr "e-1") (PInt 1) sample_oauth_client
               []) = Ok not_found_404
  ∧ result_of (get_envelope_document (PStr "e-1") (PInt 1)
                 (set__timeout None sample_oauth_client) [])
    = Ok not_found_404.
Proof.
  intros ext. split.
  - destruct (downloads_skip_status_check (ext := ext) (PStr "e-1") (PInt 1)
                (PBool true) (PBool true) sample_oauth_client [])
      as [-> _]; done.
  - destruct (downloads_skip_status_check (ext := ext) (PStr "e-1") (PInt 1)
                (PBool true) (PBool true)
                (set__timeout None sample_oauth_client) [])
      as [-> _]; done.
Defined.

Lemma get_envelope_document_list_result_witness :
  let ext := sample_externals sample_bodies (always empty_object_200) no_curl in
  result_of (get_envelope_document_list (PStr "e-1") sample_oauth_client [])
  = Raise (KeyError (PStr "envelopeDocuments")).
Proof.
  intros ext.
  assert (account_url sample_oauth_client ≠ "") as Hu by done.
  destruct (get_envelope_document_list_result (ext := ext) (PStr "e-1")
              sample_oauth_client [] 30%float empty_object_200 Hu eq_refl
              eq_refl eq_refl) as [_ H].
  by rewrite (H ∅ eq_refl eq_refl).
Defined.

Lemma document_request_framing_witness :
  let ext := sample_externals [] no_server no_curl in
  multipart_parts "myboundary"
    (document_request_body (PDict ∅) [sample_document; two_line_document])
  = [ json_part_lines (PDict ∅); [];
      [ "Content-Type:application/pdf"; disposition_line sample_document; "";
        "%PDF-1.4 sample"; "" ];
      [ "Content-Type:application/pdf"; disposition_line two_line_document;
        ""; "%PDF-1.4"; "%%EOF"; "" ] ].
Proof.
  intros ext.
  apply (document_request_framing (ext := ext) (PDict ∅)
           [sample_document; two_line_document] eq_refl eq_refl).
  repeat constructor.
Defined.

Lemma template_request_framing_witness :
  let ext := sample_externals [] no_server no_curl in
  multipart_parts "myboundary" (template_request_body (PDict ∅))
  = [ [ "Content-Type: application/json; charset=UTF-8";
        "Content-Disposition: form-data"; ""; "{}" ] ].
Proof.
  intros ext.
  by apply (template_request_framing (ext := ext) (PDict ∅) eq_refl eq_refl).
Defined.

Lemma delete_envelope_documents_ids_witness :
  let ext := sample_externals sample_bodies (always empty_object_200) no_curl in
  ∃ rq rest,
    events_of (delete_envelope_documents (PStr "e-1") (PList [])
                 sample_oauth_client []) = EvHttp rq :: rest
    ∧ rq_method rq = DELETE
    ∧ rq_data rq = DataRaw "{}".
Proof.
  intros ext.
  destruct (delete_envelope_documents_ids (ext := ext) (PStr "e-1")
              sample_oauth_client []) as (_ & _ & H).
  assert (account_url sample_oauth_client ≠ "") as Hu by done.
  destruct (H [] 30%float Hu eq_refl) as (rq & rest & Hev & Hm & _ & Hd).
  by exists rq, rest.
Defined.

Lemma search_envelopes_filters_witness :
  let ext := sample_externals sample_bodies (always empty_object_200) no_curl in
  search_envelopes (PStr "project") PNone (PStr "") (PStr "1/1/1900")
    sample_oauth_client []
  = search_envelopes PNone PNone PNone (PStr "1/1/1900") sample_oauth_client
      [].
Proof.
  intros ext.
  destruct (search_envelopes_filters (ext := ext) (PStr "project") PNone
              (PStr "") (PStr "1/1/1900") sample_oauth_client [])
    as (Hfield & _ & _).
  destruct (search_envelopes_filters (ext := ext) PNone PNone
              (PStr "") (PStr "1/1/1900") sample_oauth_client [])
    as (_ & Hstatus & _).
  by rewrite Hfield, Hstatus.
Defined.

Lemma create_envelope_timeout_witness :
  let ext := sample_externals sample_bodies (always empty_object_200)
               (always_curl (mkResponse 201 created_text)) in
  set_timeout (NFloat 1e16) sample_oauth_client = Ok patient_client
  ∧ (∃ msg, _create_envelope sample_envelope sample_parts patient_client []
            = (Raise (OverflowError msg), sample_envelope, []))
  ∧ ∃ rq rest,
      events_of (_request "/accounts/42/" GET None None None 200 None
                   patient_client []) = EvHttp rq :: rest
      ∧ rq_timeout rq = Some 1e16%float.
Proof.
  intros ext. split; [by vm_compute|].
  destruct (create_envelope_timeout (ext := ext) sample_envelope sample_parts
              patient_client []) as (_ & _ & H).
  assert (int_of_float (1e16 * 1000)%float = Ok (10 ^ 19)%Z) as Hms
    by by vm_compute.
  assert (¬ fits_long (10 ^ 19)) as Hno by (unfold fits_long; lia).
  destruct (H 1e16%float (10 ^ 19)%Z eq_refl Hms Hno) as [Hraise Hsend].
  split; [done|]. apply Hsend.
Defined.

